(** * Filmigo REST API (main.go): the HTTP gateway and its handlers

    A shallow embedding of [main.go].  The program is a gin application
    with four handlers hanging off a [MovieAPI] value that holds three
    client handles of the filmigo library.  The library and the network
    behind it are not part of the program: the library is an interface
    ([Filmigo]) and the answers of the remote services are an oracle
    ([Backend]).  Every call that reaches a client is recorded in the
    context, so that "the backend is not invoked" is a statement about
    that record. *)

From Stdlib Require Import ZArith String List.
From stdpp Require Import base option strings gmap list.

Local Open Scope string_scope.
Local Open Scope list_scope.
Local Open Scope Z_scope.
Set Warnings "-register-all".

(** ** Go pointers *)

(** A Go pointer [*T] is either [nil] or the address of a [T]. *)
Definition ptr (T : Type) : Type := option T.
Definition nil {T : Type} : ptr T := None.
Definition is_nil {T : Type} (p : ptr T) : bool :=
  match p with None => true | Some _ => false end.

(** ** net/http and os *)

Module http.
Definition StatusOK : Z := 200.
Definition StatusNoContent : Z := 204.
Definition StatusMovedPermanently : Z := 301.
Definition StatusTemporaryRedirect : Z := 307.
Definition StatusNotModified : Z := 304.
Definition StatusBadRequest : Z := 400.
Definition StatusNotFound : Z := 404.
Definition StatusInternalServerError : Z := 500.
Definition StatusServiceUnavailable : Z := 503.

(** [http.Header] and [url.Values] are both [map[string][]string]. *)
Definition Header : Type := gmap string (list string).
Definition Values : Type := gmap string (list string).

(** [Header.Set]: the key now holds exactly the one value. *)
Definition Set_ (key value : string) (h : gmap string (list string))
  : gmap string (list string) := <[key := [value]]> h.

(** [Header.Del]. *)
Definition Del (key : string) (h : gmap string (list string))
  : gmap string (list string) := delete key h.

(** [Header.Get] and [Values.Get]: the first value, or the empty string. *)
Definition Get (key : string) (h : gmap string (list string)) : string :=
  match h !! key with
  | Some (v :: _) => v
  | _ => ""
  end.

Record Request : Type := mkRequest {
  Method : string;
  (** path parameters bound by the router, in order ([gin.Params]) *)
  Params : list (string * string);
  (** the parsed query string ([URL.Query()]) *)
  URLQuery : gmap string (list string);
}.
End http.

Module os.
(** The process environment; [os.Getenv] gives the empty string for a
    variable that is not set. *)
Definition Environ : Type := gmap string string.
Definition Getenv (env : gmap string string) (key : string) : string :=
  default "" (env !! key).
End os.

(** ** The filmigo library *)

(** What the program uses of [github.com/Jisin0/filmigo]: the client and
    result types of its three packages and the three constructors.  The
    constructors return pointers. *)
Class Filmigo : Type := {
  imdb_Client : Type;
  imdb_Movie : Type;
  omdb_Client : Type;
  omdb_Movie : Type;
  omdb_SearchResult : Type;
  justwatch_Client : Type;
  error : Type;
  imdb_NewClient : ptr imdb_Client;
  omdb_NewClient : string -> ptr omdb_Client;
  justwatch_NewClient : ptr justwatch_Client;
}.

(** The answer of a client method: Go's [(result, err)] pair. *)
Definition answer `{Filmigo} (T : Type) : Type := (ptr T * option error)%type.

(** The remote services, seen through the client methods the program
    calls.  An answer may depend on the receiver and on the argument. *)
Record Backend `{Filmigo} : Type := mkBackend {
  imdb_GetMovie : ptr imdb_Client -> string -> answer imdb_Movie;
  omdb_Search : ptr omdb_Client -> string -> answer omdb_SearchResult;
  omdb_GetMovie : ptr omdb_Client -> string -> answer omdb_Movie;
}.

(** One entry of the record of client calls. *)
Inductive Call : Type :=
| CallImdbGetMovie (id : string)
| CallOmdbSearch (query : string)
| CallOmdbGetMovie (id : string).

Section API.
Context `{lib : Filmigo}.

(** ** gin *)

(** Values stored in a [gin.H] ([map[string]any]) by this program. *)
Inductive any : Type :=
| Bool (b : bool)
| Str (s : string)
| ImdbMovie (m : ptr imdb_Movie)
| OmdbMovie (m : ptr omdb_Movie)
| OmdbSearchResult (r : ptr omdb_SearchResult)
| H (h : gmap string any).

(** What has been written to the response stream: a JSON object, a
    plain text, or the short HTML note net/http sends with a redirect (a
    link to [url] labelled with the text of the status [code]). *)
Inductive Body : Type :=
| JSONBody (obj : gmap string any)
| TextBody (s : string)
| RedirectNote (url : string) (code : Z).

(** [gin.Context]: the request, the response writer ([status], [written],
    [header], [body]), the position in the handler chain, and the record
    of client calls made while serving the request. *)
Record Context : Type := mkContext {
  Request : http.Request;
  status : Z;
  written : bool;
  header : gmap string (list string);
  body : list Body;
  index : Z;
  calls : list Call;
}.

Definition set_status (code : Z) (c : Context) : Context :=
  mkContext (Request c) code (written c) (header c) (body c) (index c) (calls c).
Definition set_written (b : bool) (c : Context) : Context :=
  mkContext (Request c) (status c) b (header c) (body c) (index c) (calls c).
Definition set_header (h : gmap string (list string)) (c : Context) : Context :=
  mkContext (Request c) (status c) (written c) h (body c) (index c) (calls c).
Definition set_body (b : list Body) (c : Context) : Context :=
  mkContext (Request c) (status c) (written c) (header c) b (index c) (calls c).
Definition set_index (i : Z) (c : Context) : Context :=
  mkContext (Request c) (status c) (written c) (header c) (body c) i (calls c).
Definition set_calls (l : list Call) (c : Context) : Context :=
  mkContext (Request c) (status c) (written c) (header c) (body c) (index c) l.

(** [Context.index] is an [int8]. *)
Definition int8 (z : Z) : Z := (z + 128) mod 256 - 128.

(** [abortIndex = math.MaxInt8 >> 1]. *)
Definition abortIndex : Z := Z.shiftr 127 1.

(** [Context.reset]: the context the engine hands to the first handler. *)
Definition newContext (req : http.Request) : Context :=
  mkContext req http.StatusOK false ∅ [] (-1) [].

(** [c.Param(key)]: the value of the first parameter named [key], or the
    empty string. *)
Fixpoint ByName (ps : list (string * string)) (key : string) : string :=
  match ps with
  | [] => ""
  | (k, v) :: rest => if String.eqb k key then v else ByName rest key
  end.

Definition Param (c : Context) (key : string) : string :=
  ByName (http.Params (Request c)) key.

(** [c.Query(key)]: the first value of the query key, or the empty string. *)
Definition Query (c : Context) (key : string) : string :=
  http.Get key (http.URLQuery (Request c)).

(** [c.Header(key, value)]: set the response header, or remove it when the
    value is empty. *)
Definition Header (key value : string) (c : Context) : Context :=
  if String.eqb value ""
  then set_header (http.Del key (header c)) c
  else set_header (http.Set_ key value (header c)) c.

(** [c.Status(code)], that is [responseWriter.WriteHeader]: the code is
    recorded unless the header has gone out already. *)
Definition Status (code : Z) (c : Context) : Context :=
  if (0 <? code) && negb (status c =? code)
  then (if written c then c else set_status code c)
  else c.

Definition WriteHeaderNow (c : Context) : Context := set_written true c.

Definition Write (b : Body) (c : Context) : Context :=
  set_body (body c ++ [b]) (WriteHeaderNow c).

Definition writeContentType (value : string) (c : Context) : Context :=
  match header c !! "Content-Type" with
  | Some (_ :: _) => c
  | _ => set_header (<["Content-Type" := [value]]> (header c)) c
  end.

Definition bodyAllowedForStatus (code : Z) : bool :=
  negb (((100 <=? code) && (code <=? 199))
        || (code =? http.StatusNoContent)
        || (code =? http.StatusNotModified)).

(** [c.JSON(code, obj)]. *)
Definition JSON (code : Z) (obj : gmap string any) (c : Context) : Context :=
  let c := Status code c in
  if bodyAllowedForStatus code
  then Write (JSONBody obj) (writeContentType "application/json; charset=utf-8" c)
  else WriteHeaderNow (writeContentType "application/json; charset=utf-8" c).

(** [c.Abort()] and [c.AbortWithStatus(code)]. *)
Definition Abort (c : Context) : Context := set_index abortIndex c.

Definition AbortWithStatus (code : Z) (c : Context) : Context :=
  Abort (WriteHeaderNow (Status code c)).

Definition IsAborted (c : Context) : bool := abortIndex <=? index c.

(** [c.index++]. *)
Definition incr_index (c : Context) : Context :=
  set_index (int8 (index c + 1)) c.

(** A handler receives the context; [c.Next()] is passed to it as its
    first argument, because what it runs is the rest of the chain the
    handler sits in. *)
Definition HandlerFunc : Type := (Context -> Context) -> Context -> Context.

(** The loop of [c.Next()] over [hs], the handlers from position
    [c.index] on, in a chain of [n] handlers:
    [for c.index < n { handlers[c.index](c); c.index++ }]. *)
Fixpoint Next_loop (n : Z) (hs : list HandlerFunc) (c : Context) : Context :=
  match hs with
  | [] => c
  | h :: rest =>
      if index c <? n then
        let c' := h (fun c0 => Next_loop n rest (incr_index c0)) c in
        Next_loop n rest (incr_index c')
      else c
  end.

(** [c.Next()] called by the engine on a fresh context. *)
Definition Next (hs : list HandlerFunc) (c : Context) : Context :=
  Next_loop (Z.of_nat (length hs)) hs (incr_index c).

(** ** main.go *)

(** [MovieAPI] holds all the movie service clients. *)
Record MovieAPI : Type := mkMovieAPI {
  imdbClient : ptr imdb_Client;
  omdbClient : ptr omdb_Client;
  justwatchClient : ptr justwatch_Client;
}.

(** [NewMovieAPI] reads [OMDB_API_KEY] from the environment, logs a
    warning when it is empty, and builds the three clients.  The result
    is the new [MovieAPI] and the lines sent to the log. *)
Definition NewMovieAPI (env : gmap string string) : MovieAPI * list string :=
  let omdbKey := os.Getenv env "OMDB_API_KEY" in
  let log :=
    if String.eqb omdbKey ""
    then ["Warning: OMDB_API_KEY not set. OMDB features will be disabled."]
    else [] in
  (mkMovieAPI imdb_NewClient (omdb_NewClient omdbKey) justwatch_NewClient, log).

(** The three client methods the handlers call.  Each asks the backend
    for the answer and adds the call to the record. *)
Definition imdbClient_GetMovie (w : Backend) (cl : ptr imdb_Client) (id : string)
    (c : Context) : answer imdb_Movie * Context :=
  (imdb_GetMovie w cl id, set_calls (calls c ++ [CallImdbGetMovie id]) c).

Definition omdbClient_Search (w : Backend) (cl : ptr omdb_Client) (query : string)
    (c : Context) : answer omdb_SearchResult * Context :=
  (omdb_Search w cl query, set_calls (calls c ++ [CallOmdbSearch query]) c).

Definition omdbClient_GetMovie (w : Backend) (cl : ptr omdb_Client) (id : string)
    (c : Context) : answer omdb_Movie * Context :=
  (omdb_GetMovie w cl id, set_calls (calls c ++ [CallOmdbGetMovie id]) c).

(** Health check endpoint. *)
Definition healthCheck (api : MovieAPI) (c : Context) : Context :=
  JSON http.StatusOK
    {[ "status" := Str "OK";
       "service" := Str "filmigo-api";
       "version" := Str "1.0.0";
       "message" := Str "Filmigo API is running successfully!" ]} c.

(** Get movie by IMDB ID. *)
Definition getMovieByID (w : Backend) (api : MovieAPI) (c : Context) : Context :=
  let id := Param c "id" in
  if negb (String.prefix "tt" id) then
    JSON http.StatusBadRequest
      {[ "error" := Str "Invalid IMDB ID format. Must start with 'tt'";
         "example" := Str "tt0111161" ]} c
  else
    let '((movie, err), c) := imdbClient_GetMovie w (imdbClient api) id c in
    match err with
    | Some _ =>
        JSON http.StatusNotFound
          {[ "error" := Str "Movie not found";
             "id" := Str id ]} c
    | None =>
        JSON http.StatusOK
          {[ "success" := Bool true;
             "data" := ImdbMovie movie ]} c
    end.

(** Search movies using OMDB. *)
Definition searchMovies (w : Backend) (api : MovieAPI) (c : Context) : Context :=
  let query := Query c "q" in
  if String.eqb query "" then
    JSON http.StatusBadRequest
      {[ "error" := Str "Query parameter 'q' is required";
         "example" := Str "/api/v1/movies/search?q=inception" ]} c
  else if is_nil (omdbClient api) then
    JSON http.StatusServiceUnavailable
      {[ "error" := Str "OMDB service unavailable. API key not configured." ]} c
  else
    let '((results, err), c) := omdbClient_Search w (omdbClient api) query c in
    match err with
    | Some _ =>
        JSON http.StatusInternalServerError
          {[ "error" := Str "Search failed";
             "query" := Str query ]} c
    | None =>
        JSON http.StatusOK
          {[ "success" := Bool true;
             "query" := Str query;
             "results" := OmdbSearchResult results ]} c
    end.

(** Get movie from OMDB by IMDB ID. *)
Definition getOMDBMovie (w : Backend) (api : MovieAPI) (c : Context) : Context :=
  let id := Param c "id" in
  if is_nil (omdbClient api) then
    JSON http.StatusServiceUnavailable
      {[ "error" := Str "OMDB service unavailable. API key not configured." ]} c
  else
    let '((movie, err), c) := omdbClient_GetMovie w (omdbClient api) id c in
    match err with
    | Some _ =>
        JSON http.StatusNotFound
          {[ "error" := Str "Movie not found in OMDB";
             "id" := Str id ]} c
    | None =>
        JSON http.StatusOK
          {[ "success" := Bool true;
             "source" := Str "omdb";
             "data" := OmdbMovie movie ]} c
    end.

(** CORS middleware. *)
Definition corsMiddleware : HandlerFunc := fun next c =>
  let c := Header "Access-Control-Allow-Origin" "*" c in
  let c := Header "Access-Control-Allow-Methods" "GET, POST, PUT, DELETE, OPTIONS" c in
  let c := Header "Access-Control-Allow-Headers" "Content-Type, Authorization" c in
  if String.eqb (http.Method (Request c)) "OPTIONS" then
    AbortWithStatus 204 c
  else
    next c.

(** The three headers the CORS middleware sets. *)
Definition corsHeaders (c : Context) : Context :=
  Header "Access-Control-Allow-Headers" "Content-Type, Authorization"
    (Header "Access-Control-Allow-Methods" "GET, POST, PUT, DELETE, OPTIONS"
      (Header "Access-Control-Allow-Origin" "*" c)).

(** Request logging middleware, and gin's own [Logger] and [Recovery]
    that [gin.Default()] installs: each runs the rest of the chain.  The
    access-log line goes to the process log, not to the response. *)
Definition requestLoggingMiddleware : HandlerFunc := fun next c => next c.
Definition Logger : HandlerFunc := fun next c => next c.
Definition Recovery : HandlerFunc := fun next c => next c.

(** The handler of the root endpoint: the API documentation. *)
Definition rootHandler (c : Context) : Context :=
  JSON http.StatusOK
    {[ "message" := Str "üé¨ Welcome to Filmigo API";
       "version" := Str "1.0.0";
       "description" := Str "A powerful REST API for movie data";
       "endpoints" := H
         {[ "health" := Str "GET /api/v1/health";
            "movie_by_id" := Str "GET /api/v1/movies/{imdb_id}";
            "search" := Str "GET /api/v1/movies/search?q={query}";
            "omdb_movie" := Str "GET /api/v1/omdb/{imdb_id}" ]};
       "examples" := H
         {[ "get_movie" := Str "/api/v1/movies/tt0111161";
            "search_movies" := Str "/api/v1/movies/search?q=inception";
            "omdb_data" := Str "/api/v1/omdb/tt0111161";
            "health_check" := Str "/api/v1/health" ]} ]} c.

(** The routes [main] registers, all for the method GET. *)
Inductive Route : Type :=
| RouteRoot         (* GET /                     *)
| RouteHealth       (* GET /api/v1/health        *)
| RouteMovieByID    (* GET /api/v1/movies/:id    *)
| RouteSearch       (* GET /api/v1/movies/search *)
| RouteOMDB.        (* GET /api/v1/omdb/:id      *)

(** A route handler does not call [c.Next()]. *)
Definition final (h : Context -> Context) : HandlerFunc := fun _ c => h c.

Definition routeHandler (w : Backend) (api : MovieAPI) (r : Route) : HandlerFunc :=
  match r with
  | RouteRoot => final rootHandler
  | RouteHealth => final (healthCheck api)
  | RouteMovieByID => final (getMovieByID w api)
  | RouteSearch => final (searchMovies w api)
  | RouteOMDB => final (getOMDBMovie w api)
  end.

(** The middleware of the engine: [gin.Default()] brings [Logger] and
    [Recovery], then [main] adds three with [r.Use]. *)
Definition middleware : list HandlerFunc :=
  [Logger; Recovery; corsMiddleware; requestLoggingMiddleware; Recovery].

(** gin's [serveError], for a request that matches no route: the
    middleware runs with the status preset, and the default body is
    written when no handler has written anything. *)
Definition serveError (code : Z) (defaultMessage : string) (hs : list HandlerFunc)
    (c : Context) : Context :=
  let c := Next hs (set_status code c) in
  if written c then c
  else if status c =? code then
    Write (TextBody defaultMessage) (set_header (<["Content-Type" := ["text/plain"]]> (header c)) c)
  else WriteHeaderNow c.

(** What gin's route tree answers for the path of a request
    ([node.getValue]): the handlers of a route; or no handlers and the
    recommendation to redirect, because a route exists for the path with
    a trailing slash added or removed ([location] is the URL of the
    request changed so); or nothing.  The lookup itself is gin's and is
    not modelled. *)
Inductive Lookup : Type :=
| Found (r : Route)
| TrailingSlash (location : string)
| NoMatch.

(** [http.Redirect(w, req, url, code)]: the [Location] header, and for a
    response without a content type a short HTML note (for GET). *)
Definition http_Redirect (url : string) (code : Z) (c : Context) : Context :=
  let hadCT := match header c !! "Content-Type" with Some _ => true | None => false end in
  let method := http.Method (Request c) in
  let c := set_header (http.Set_ "Location" url (header c)) c in
  let c :=
    if negb hadCT && (String.eqb method "GET" || String.eqb method "HEAD")
    then set_header (http.Set_ "Content-Type" "text/html; charset=utf-8" (header c)) c
    else c in
  let c := Status code c in
  if negb hadCT && String.eqb method "GET"
  then Write (RedirectNote url code) c
  else c.

(** gin's [redirectTrailingSlash], from [redirectRequest] on: 301 for
    GET, 307 for the other methods. *)
Definition redirectRequest (location : string) (c : Context) : Context :=
  let code :=
    if String.eqb (http.Method (Request c)) "GET"
    then http.StatusMovedPermanently
    else http.StatusTemporaryRedirect in
  WriteHeaderNow (http_Redirect location code c).

(** The engine serving one request ([handleHTTPRequest] on the fresh
    context); [found] is the answer of the route tree for the path.
    [main] registers routes for GET only, so only GET has a tree: a
    request with another method goes to the no-route handlers at once.
    For GET, a route runs the middleware and its handler; a
    trailing-slash recommendation is answered with a redirect before
    any middleware runs ([gin.Default()] leaves [RedirectTrailingSlash]
    on); anything else goes to the no-route handlers. *)
Definition ServeHTTP (w : Backend) (api : MovieAPI) (found : Lookup)
    (req : http.Request) : Context :=
  let c := newContext req in
  if String.eqb (http.Method req) "GET" then
    match found with
    | Found r => Next (middleware ++ [routeHandler w api r]) c
    | TrailingSlash location => redirectRequest location c
    | NoMatch => serveError http.StatusNotFound "404 page not found" middleware c
    end
  else serveError http.StatusNotFound "404 page not found" middleware c.

(** The JSON object of the response, when the response is exactly one. *)
Definition response (c : Context) : option (gmap string any) :=
  match body c with
  | [JSONBody obj] => Some obj
  | _ => None
  end.

(** ** Notions used in the statements *)

(** The body of the health check. *)
Definition healthBody : gmap string any :=
  {[ "status" := Str "OK";
     "service" := Str "filmigo-api";
     "version" := Str "1.0.0";
     "message" := Str "Filmigo API is running successfully!" ]}.

(** The four operations of the API and their handlers. *)
Inductive Operation : Type :=
| OpHealth
| OpMovieByID
| OpSearch
| OpOMDB.

Definition handlerOf (w : Backend) (api : MovieAPI) (op : Operation)
    : Context -> Context :=
  match op with
  | OpHealth => healthCheck api
  | OpMovieByID => getMovieByID w api
  | OpSearch => searchMovies w api
  | OpOMDB => getOMDBMovie w api
  end.

(** Running an operation on a request: the handler applied to a fresh
    context. *)
Definition run (w : Backend) (api : MovieAPI) (op : Operation)
    (req : http.Request) : Context :=
  handlerOf w api op (newContext req).

(** Two requests carry the same parameters for an operation when the
    parameter the handler reads has the same value in both. *)
Definition same_params (op : Operation) (r1 r2 : http.Request) : Prop :=
  match op with
  | OpHealth => True
  | OpMovieByID | OpOMDB =>
      Param (newContext r1) "id" = Param (newContext r2) "id"
  | OpSearch =>
      Query (newContext r1) "q" = Query (newContext r2) "q"
  end.

(** Two backends give the same answer to an operation on a request when
    the client method the handler may call answers the same in both. *)
Definition same_answer (op : Operation) (api : MovieAPI) (w1 w2 : Backend)
    (req : http.Request) : Prop :=
  match op with
  | OpHealth => True
  | OpMovieByID =>
      imdb_GetMovie w1 (imdbClient api) (Param (newContext req) "id")
      = imdb_GetMovie w2 (imdbClient api) (Param (newContext req) "id")
  | OpSearch =>
      omdb_Search w1 (omdbClient api) (Query (newContext req) "q")
      = omdb_Search w2 (omdbClient api) (Query (newContext req) "q")
  | OpOMDB =>
      omdb_GetMovie w1 (omdbClient api) (Param (newContext req) "id")
      = omdb_GetMovie w2 (omdbClient api) (Param (newContext req) "id")
  end.

(** Two contexts show the same exchange when they agree on the request,
    on what the response writer holds apart from the headers, and on the
    record of client calls. *)
Definition same_exchange (c1 c2 : Context) : Prop :=
  Request c1 = Request c2 /\ status c1 = status c2 /\
  written c1 = written c2 /\ body c1 = body c2 /\ calls c1 = calls c2.

(** The envelope of a response: it is one JSON object; when the object
    reports [success] true it has a [data] or a [results] field; when the
    response is a failure (a status other than 200, or an object that
    does not report success) it has an [error] field. *)
Definition envelope (c : Context) : Prop :=
  exists obj, response c = Some obj /\
    (obj !! "success" = Some (Bool true) ->
       is_Some (obj !! "data") \/ is_Some (obj !! "results")) /\
    (status c <> http.StatusOK -> is_Some (obj !! "error")) /\
    (obj !! "success" <> Some (Bool true) -> is_Some (obj !! "error")).

(** ** The rest of [main] *)

(** The address [main] hands to [r.Run]: the port comes from [PORT], or
    is 8080 when [PORT] is empty, and the server binds to all
    interfaces. *)
Definition listenAddr (env : gmap string string) : string :=
  let port := os.Getenv env "PORT" in
  let port := if String.eqb port "" then "8080" else port in
  String.append "0.0.0.0:" port.

(** [main] switches gin to release mode when [GIN_MODE] says so. *)
Definition releaseMode (env : gmap string string) : bool :=
  String.eqb (os.Getenv env "GIN_MODE") "release".

(** ** Further notions used in the statements *)

(** The client call the handler of a route makes when it gets as far as
    its client. *)
Definition expectedCall (r : Route) (req : http.Request) : option Call :=
  match r with
  | RouteRoot | RouteHealth => None
  | RouteMovieByID => Some (CallImdbGetMovie (Param (newContext req) "id"))
  | RouteSearch => Some (CallOmdbSearch (Query (newContext req) "q"))
  | RouteOMDB => Some (CallOmdbGetMovie (Param (newContext req) "id"))
  end.

(** The client method behind an operation answers the request with an
    error. *)
Definition client_fails (op : Operation) (api : MovieAPI) (w : Backend)
    (req : http.Request) : Prop :=
  match op with
  | OpHealth => True
  | OpMovieByID =>
      snd (imdb_GetMovie w (imdbClient api) (Param (newContext req) "id")) <> None
  | OpSearch =>
      snd (omdb_Search w (omdbClient api) (Query (newContext req) "q")) <> None
  | OpOMDB =>
      snd (omdb_GetMovie w (omdbClient api) (Param (newContext req) "id")) <> None
  end.

(** The engine answers the request with a trailing-slash redirect. *)
Definition redirected (found : Lookup) (req : http.Request) : Prop :=
  http.Method req = "GET" /\ exists location, found = TrailingSlash location.

(** The three headers of the CORS middleware, as key and value. *)
Definition corsPairs : list (string * string) :=
  [ ("Access-Control-Allow-Origin", "*");
    ("Access-Control-Allow-Methods", "GET, POST, PUT, DELETE, OPTIONS");
    ("Access-Control-Allow-Headers", "Content-Type, Authorization") ].

(** The strict form of the envelope: a response is one JSON object that
    either reports [success] true, carries no [error] and has status
    200, or carries an [error] message, no [success] field at all, and
    has another status. *)
Definition strict_envelope (c : Context) : Prop :=
  exists obj, response c = Some obj /\
    ((status c = http.StatusOK /\
      obj !! "success" = Some (Bool true) /\ obj !! "error" = None) \/
     (status c <> http.StatusOK /\
      obj !! "success" = None /\ exists msg, obj !! "error" = Some (Str msg))).

(** The status codes the handler of a route can answer with. *)
Definition statusesOf (r : Route) : list Z :=
  match r with
  | RouteRoot | RouteHealth => [200]
  | RouteMovieByID => [200; 400; 404]
  | RouteSearch => [200; 400; 500; 503]
  | RouteOMDB => [200; 404; 503]
  end.

End API.

(** ** A small library instance and backend, for concrete runs *)

Module Sample.
(** Movies and errors are strings, an OMDB client is its API key. *)
#[local] Instance lib : Filmigo := {|
  imdb_Client := unit;
  imdb_Movie := string;
  omdb_Client := string;
  omdb_Movie := string;
  omdb_SearchResult := list string;
  justwatch_Client := unit;
  error := string;
  imdb_NewClient := Some tt;
  omdb_NewClient := fun key => Some key;
  justwatch_NewClient := Some tt;
|}.

(** A backend that knows one title and refuses an empty API key. *)
Definition world : Backend := {|
  imdb_GetMovie := fun _ id =>
    if String.eqb id "tt0111161"
    then (Some "The Shawshank Redemption", None)
    else (None, Some "no such title");
  omdb_Search := fun cl query =>
    match cl with
    | Some "" | None => (None, Some "no API key")
    | Some _ => (Some [query], None)
    end;
  omdb_GetMovie := fun cl id =>
    match cl with
    | Some "" | None => (None, Some "no API key")
    | Some _ => (Some id, None)
    end;
|}.

(** A backend that serves the same titles, with OMDB unreachable. *)
Definition imdbOnly : Backend := {|
  imdb_GetMovie := imdb_GetMovie world;
  omdb_Search := fun _ _ => (None, Some "unreachable");
  omdb_GetMovie := fun _ _ => (None, Some "unreachable");
|}.

(** A backend where every lookup fails. *)
Definition down : Backend := {|
  imdb_GetMovie := fun _ _ => (None, Some "timeout");
  omdb_Search := fun _ _ => (None, Some "timeout");
  omdb_GetMovie := fun _ _ => (None, Some "timeout");
|}.

(** [GET] with the path parameter [id] and the query value [q]. *)
Definition get (id q : string) : http.Request :=
  http.mkRequest "GET" [("id", id)] {[ "q" := [q] ]}.

(** A request without any parameter. *)
Definition bare (method : string) : http.Request :=
  http.mkRequest method [] ∅.

(** An API whose OMDB handle is nil, and the one [NewMovieAPI] builds
    in an empty environment. *)
Definition noOMDB : MovieAPI := mkMovieAPI (Some tt) nil (Some tt).
Definition fromEmptyEnv : MovieAPI := fst (NewMovieAPI ∅).
End Sample.

(** ** Properties *)

Section Properties.
Context `{lib : Filmigo}.
Implicit Types (c : Context) (req : http.Request) (api : MovieAPI) (w : Backend).

(** *** The response writer *)

Lemma JSON_index code obj c : index (JSON code obj c) = index c.
Proof.
  unfold JSON, Status, Write, WriteHeaderNow, writeContentType.
  repeat case_match; reflexivity.
Qed.

Lemma JSON_calls code obj c : calls (JSON code obj c) = calls c.
Proof.
  unfold JSON, Status, Write, WriteHeaderNow, writeContentType.
  repeat case_match; reflexivity.
Qed.

Lemma JSON_Request code obj c : Request (JSON code obj c) = Request c.
Proof.
  unfold JSON, Status, Write, WriteHeaderNow, writeContentType.
  repeat case_match; reflexivity.
Qed.

Lemma JSON_header_other code obj c key :
  key ≠ "Content-Type" -> header (JSON code obj c) !! key = header c !! key.
Proof.
  intros Hkey.
  unfold JSON, Status, Write, WriteHeaderNow, writeContentType.
  repeat case_match; cbn; try reflexivity; by rewrite lookup_insert_ne.
Qed.

(** On a response nothing has been written to, [c.JSON] with a status
    that allows a body leaves exactly that status and that object. *)
Lemma JSON_status code obj c :
  written c = false -> 0 < code -> status (JSON code obj c) = code.
Proof.
  intros Hw Hcode.
  assert (Hs : status (Status code c) = code).
  { unfold Status. rewrite Hw.
    destruct (Z.ltb_spec 0 code); [|lia].
    destruct (Z.eqb_spec (status c) code); cbn; congruence. }
  unfold JSON, Write, WriteHeaderNow, writeContentType.
  repeat case_match; cbn; assumption.
Qed.

Lemma JSON_body code obj c :
  bodyAllowedForStatus code = true ->
  body (JSON code obj c) = body c ++ [JSONBody obj].
Proof.
  intros Hb. unfold JSON. rewrite Hb.
  unfold Status, Write, WriteHeaderNow, writeContentType.
  repeat case_match; reflexivity.
Qed.

Lemma JSON_response code obj c :
  body c = [] -> bodyAllowedForStatus code = true ->
  response (JSON code obj c) = Some obj.
Proof.
  intros Hnil Hb. unfold response. rewrite JSON_body, Hnil by assumption. reflexivity.
Qed.

(** *** Reading the request *)

Lemma Param_newContext req key : Param (newContext req) key = ByName (http.Params req) key.
Proof. reflexivity. Qed.

Lemma Query_newContext req key :
  Query (newContext req) key = http.Get key (http.URLQuery req).
Proof. reflexivity. Qed.

(** [c.Query("q")] is empty exactly when [q] is absent from the query
    string, is listed without a value, or has the empty string as its
    first value. *)
Lemma Query_empty_iff req :
  Query (newContext req) "q" = "" <->
  (http.URLQuery req !! "q" = None \/
   http.URLQuery req !! "q" = Some [] \/
   exists rest, http.URLQuery req !! "q" = Some ("" :: rest)).
Proof.
  rewrite Query_newContext. unfold http.Get.
  destruct (http.URLQuery req !! "q") as [[|v vs]|]; split; intros Hq.
  - right; left; reflexivity.
  - reflexivity.
  - right; right; exists vs; by subst.
  - destruct Hq as [Hq|[Hq|[rest Hq]]]; congruence.
  - left; reflexivity.
  - reflexivity.
Qed.

Ltac fresh_json :=
  repeat match goal with
  | |- _ /\ _ => split
  | |- status (JSON _ _ _) = _ => apply JSON_status; [reflexivity | reflexivity]
  | |- response (JSON _ _ _) = _ => apply JSON_response; reflexivity
  | |- calls (JSON _ _ _) = _ => rewrite JSON_calls; reflexivity
  end.

(** *** Health check *)

(** C5: the health check answers every request with status 200 and the
    same object of exactly the four fields status, service, version and
    message, whatever the client handles of the API are, and without
    calling any client. *)
Theorem healthCheck_always_ok api req :
  let c := healthCheck api (newContext req) in
  status c = http.StatusOK /\
  response c = Some healthBody /\
  dom healthBody = {[ "status"; "service"; "version"; "message" ]} /\
  size healthBody = 4%nat /\
  calls c = [].
Proof.
  cbn zeta. unfold healthCheck. fresh_json.
  - vm_compute. reflexivity.
  - vm_compute. reflexivity.
Qed.

(** *** Movie by identifier *)

(** C2: an identifier that does not start with [tt] is answered with
    status 400 and a body whose [example] field is [tt0111161], and no
    client is called. *)
Theorem getMovieByID_rejects_other_prefix w api req :
  String.prefix "tt" (Param (newContext req) "id") = false ->
  let c := getMovieByID w api (newContext req) in
  status c = http.StatusBadRequest /\
  (exists obj, response c = Some obj /\ obj !! "example" = Some (Str "tt0111161")) /\
  calls c = [].
Proof.
  intros Hid. cbn zeta. unfold getMovieByID. rewrite Hid. cbn [negb].
  fresh_json. eexists. split; [fresh_json|]. vm_compute. reflexivity.
Qed.

(** C4: for an identifier that starts with [tt] the primary client is
    asked once, with that identifier.  When it answers without an error,
    the response is 200 with [success] true and [data] the record of the
    answer; when it answers with an error, the response is 404. *)
Theorem getMovieByID_follows_client w api req :
  let id := Param (newContext req) "id" in
  String.prefix "tt" id = true ->
  let c := getMovieByID w api (newContext req) in
  calls c = [CallImdbGetMovie id] /\
  (forall movie, imdb_GetMovie w (imdbClient api) id = (movie, None) ->
     status c = http.StatusOK /\
     response c = Some {[ "success" := Bool true; "data" := ImdbMovie movie ]}) /\
  (forall movie e, imdb_GetMovie w (imdbClient api) id = (movie, Some e) ->
     status c = http.StatusNotFound).
Proof.
  intros id Hid. cbn zeta. unfold getMovieByID. fold id. rewrite Hid. cbn [negb].
  unfold imdbClient_GetMovie.
  destruct (imdb_GetMovie w (imdbClient api) id) as [movie [e|]] eqn:Hanswer.
  - split; [fresh_json|]. split; [intros ? [=]|].
    intros ? ? _. fresh_json.
  - split; [fresh_json|]. split; [|intros ? ? [=]].
    intros movie' [= <-]. fresh_json.
Qed.

(** *** Search *)

(** C3: when [q] is empty or absent the search answers 400 and calls no
    client. *)
Theorem searchMovies_requires_query w api req :
  Query (newContext req) "q" = "" ->
  let c := searchMovies w api (newContext req) in
  status c = http.StatusBadRequest /\ calls c = [].
Proof.
  intros Hq. cbn zeta. unfold searchMovies. rewrite Hq. cbn [String.eqb].
  fresh_json.
Qed.

(** C9: the test of [q] comes before the test of the client handle: an
    empty or absent [q] is answered 400, not 503, also by an API whose
    OMDB handle is nil. *)
Theorem searchMovies_query_checked_first w api req :
  omdbClient api = nil ->
  Query (newContext req) "q" = "" ->
  let c := searchMovies w api (newContext req) in
  status c = http.StatusBadRequest /\ status c <> http.StatusServiceUnavailable.
Proof.
  intros _ Hq. cbn zeta. unfold searchMovies. rewrite Hq. cbn [String.eqb].
  assert (Hs : status (JSON http.StatusBadRequest
      {[ "error" := Str "Query parameter 'q' is required";
         "example" := Str "/api/v1/movies/search?q=inception" ]} (newContext req))
      = http.StatusBadRequest) by fresh_json.
  rewrite Hs. split; [reflexivity | discriminate].
Qed.

(** An API whose OMDB handle is nil answers 503, without calling a
    client, every OMDB lookup and every search whose [q] is not empty; a
    search whose [q] is empty or absent is answered 400 also then. *)
Theorem omdb_unavailable_without_client w api req :
  omdbClient api = nil ->
  (let c := getOMDBMovie w api (newContext req) in
   status c = http.StatusServiceUnavailable /\ calls c = []) /\
  (Query (newContext req) "q" <> "" ->
   let c := searchMovies w api (newContext req) in
   status c = http.StatusServiceUnavailable /\ calls c = []) /\
  (Query (newContext req) "q" = "" ->
   status (searchMovies w api (newContext req)) = http.StatusBadRequest).
Proof.
  intros Hnil. split; [|split].
  - cbn zeta. unfold getOMDBMovie. rewrite Hnil. cbn [is_nil nil]. fresh_json.
  - intros Hq. cbn zeta. unfold searchMovies.
    destruct (String.eqb_spec (Query (newContext req) "q") ""); [contradiction|].
    rewrite Hnil. cbn [is_nil nil]. fresh_json.
  - intros Hq. unfold searchMovies. rewrite Hq. cbn [String.eqb]. fresh_json.
Qed.

(** *** The envelope *)

Lemma envelope_success obj c :
  written c = false -> body c = [] ->
  obj !! "success" = Some (Bool true) ->
  is_Some (obj !! "data") \/ is_Some (obj !! "results") ->
  envelope (JSON http.StatusOK obj c).
Proof.
  intros Hw Hb Hs Hp. exists obj.
  split; [by apply JSON_response|].
  split; [done|].
  split; [rewrite JSON_status by done; done | done].
Qed.

Lemma envelope_failure code obj c :
  body c = [] -> bodyAllowedForStatus code = true ->
  obj !! "success" = None ->
  is_Some (obj !! "error") ->
  envelope (JSON code obj c).
Proof.
  intros Hb Ha Hs He. exists obj.
  split; [by apply JSON_response|].
  split; [rewrite Hs; discriminate|]. done.
Qed.

Ltac envelope_case :=
  first
    [ apply envelope_success;
      [ reflexivity | reflexivity | vm_compute; reflexivity
      | first [ left; eexists; vm_compute; reflexivity
              | right; eexists; vm_compute; reflexivity ] ]
    | apply envelope_failure;
      [ reflexivity | reflexivity | vm_compute; reflexivity
      | eexists; vm_compute; reflexivity ] ].

(** C6: every response of the movie-by-id, search and OMDB operations
    satisfies the envelope invariant. *)
Theorem handlers_respect_envelope w api req :
  envelope (getMovieByID w api (newContext req)) /\
  envelope (searchMovies w api (newContext req)) /\
  envelope (getOMDBMovie w api (newContext req)).
Proof.
  split; [|split].
  - unfold getMovieByID, imdbClient_GetMovie.
    destruct (negb _); [envelope_case|].
    destruct (imdb_GetMovie _ _ _) as [movie [e|]]; envelope_case.
  - unfold searchMovies, omdbClient_Search.
    destruct (String.eqb _ _); [envelope_case|].
    destruct (is_nil _); [envelope_case|].
    destruct (omdb_Search _ _ _) as [results [e|]]; envelope_case.
  - unfold getOMDBMovie, omdbClient_GetMovie.
    destruct (is_nil _); [envelope_case|].
    destruct (omdb_GetMovie _ _ _) as [movie [e|]]; envelope_case.
Qed.

(** *** The handler chain *)

Lemma int8_small z : -128 <= z < 128 -> int8 z = z.
Proof. intros Hz. unfold int8. rewrite Z.mod_small by lia. lia. Qed.

Lemma incr_index_at k c :
  index c = k -> -128 <= k + 1 < 128 -> incr_index c = set_index (k + 1) c.
Proof. intros Hk Hr. unfold incr_index. rewrite Hk, int8_small by lia. reflexivity. Qed.

Lemma Next_loop_run n h rest c :
  index c < n ->
  Next_loop n (h :: rest) c
  = Next_loop n rest (incr_index (h (fun c0 => Next_loop n rest (incr_index c0)) c)).
Proof.
  intros Hlt. cbn [Next_loop].
  destruct (Z.ltb_spec (index c) n); [reflexivity | lia].
Qed.

(** Past the end of the chain, or after an abort, the loop stops. *)
Lemma Next_loop_done n hs c : n <= index c -> Next_loop n hs c = c.
Proof.
  intros Hn. destruct hs as [|h rest]; [reflexivity|]. cbn [Next_loop].
  destruct (Z.ltb_spec (index c) n); [lia | reflexivity].
Qed.

(** A middleware that only calls [c.Next()]: when the rest of the chain
    comes back at position [j], the loop leaves at [j + 1]. *)
Lemma pass_level n pass rest k j c X :
  (forall next c0, pass next c0 = next c0) ->
  index c = k -> 0 <= k < n -> n <= j < 126 ->
  Next_loop n rest (set_index (k + 1) c) = set_index j X ->
  Next_loop n (pass :: rest) c = set_index (j + 1) X.
Proof.
  intros Hpass Hk Hkn Hj Hrest.
  rewrite Next_loop_run by lia. rewrite Hpass.
  rewrite (incr_index_at k c) by (done || lia). rewrite Hrest.
  rewrite (incr_index_at j) by (done || lia).
  apply Next_loop_done. cbn. lia.
Qed.

(** The last handler of a chain, one that keeps the position. *)
Lemma final_level n g k c :
  (forall c0, index (g c0) = index c0) ->
  index c = k -> 0 <= k < n -> k < 126 ->
  Next_loop n [final g] c = set_index (k + 1) (g c).
Proof.
  intros Hg Hk Hkn Hr.
  rewrite Next_loop_run by lia. unfold final. cbn [Next_loop].
  apply incr_index_at; [by rewrite Hg | lia].
Qed.

Lemma corsHeaders_origin c :
  header (corsHeaders c) !! "Access-Control-Allow-Origin" = Some ["*"].
Proof.
  unfold corsHeaders, Header, http.Set_. cbn.
  rewrite !lookup_insert_ne by discriminate. apply lookup_insert_eq.
Qed.

Lemma corsHeaders_frame c :
  Request (corsHeaders c) = Request c /\ status (corsHeaders c) = status c /\
  written (corsHeaders c) = written c /\ body (corsHeaders c) = body c /\
  index (corsHeaders c) = index c /\ calls (corsHeaders c) = calls c.
Proof. repeat split. Qed.

Lemma corsMiddleware_unfold next c :
  corsMiddleware next c =
  if String.eqb (http.Method (Request c)) "OPTIONS"
  then AbortWithStatus 204 (corsHeaders c)
  else next (corsHeaders c).
Proof. reflexivity. Qed.

(** The CORS middleware on a request that is not a preflight: the
    headers are set and the rest of the chain runs. *)
Lemma cors_level n rest k j c X :
  http.Method (Request c) <> "OPTIONS" ->
  index c = k -> 0 <= k < n -> n <= j < 126 ->
  Next_loop n rest (set_index (k + 1) (corsHeaders c)) = set_index j X ->
  Next_loop n (corsMiddleware :: rest) c = set_index (j + 1) X.
Proof.
  intros Hm Hk Hkn Hj Hrest.
  rewrite Next_loop_run by lia. rewrite corsMiddleware_unfold.
  destruct (String.eqb_spec (http.Method (Request c)) "OPTIONS"); [contradiction|].
  rewrite (incr_index_at k (corsHeaders c)) by (done || lia). rewrite Hrest.
  rewrite (incr_index_at j) by (done || lia).
  apply Next_loop_done. cbn. lia.
Qed.

(** The CORS middleware on a preflight: whatever follows it in the
    chain, the loop leaves right after the abort. *)
Lemma cors_abort_level n rest c :
  http.Method (Request c) = "OPTIONS" ->
  index c < n -> n <= 64 ->
  Next_loop n (corsMiddleware :: rest) c
  = set_index 64 (AbortWithStatus 204 (corsHeaders c)).
Proof.
  intros Hm Hlt Hn.
  rewrite Next_loop_run by lia. rewrite corsMiddleware_unfold, Hm. cbn [String.eqb Ascii.eqb Bool.eqb].
  rewrite (incr_index_at 63) by (done || lia).
  apply Next_loop_done. cbn. lia.
Qed.

Lemma pass_Logger next c : Logger next c = next c.
Proof. reflexivity. Qed.
Lemma pass_Recovery next c : Recovery next c = next c.
Proof. reflexivity. Qed.
Lemma pass_requestLogging next c : requestLoggingMiddleware next c = next c.
Proof. reflexivity. Qed.

Ltac pass_step lem k j :=
  eapply (pass_level _ _ _ k j _ _ lem); [reflexivity | lia | lia | ].
Ltac cors_step Hm k j :=
  eapply (cors_level _ _ k j); [exact Hm | reflexivity | lia | lia | ].

(** A request that is not a preflight and matches a route: the handler
    of the route runs once, at position 5, on the context that carries
    the CORS headers. *)
Lemma chain_route g req :
  http.Method req <> "OPTIONS" ->
  (forall c, index (g c) = index c) ->
  Next (middleware ++ [final g]) (newContext req)
  = set_index 11 (g (set_index 5 (corsHeaders (newContext req)))).
Proof.
  intros Hm Hg. unfold Next, middleware.
  rewrite (incr_index_at (-1)) by (done || lia).
  cbn [app length Z.of_nat Pos.of_succ_nat Pos.succ Z.add Z.opp Z.pos_sub].
  pass_step pass_Logger 0 10.
  pass_step pass_Recovery 1 9.
  cors_step Hm 2 8.
  pass_step pass_requestLogging 3 7.
  pass_step pass_Recovery 4 6.
  rewrite (final_level _ g 5) by (done || lia). reflexivity.
Qed.

(** A request that is not a preflight and matches no route: only the
    headers are added. *)
Lemma chain_noroute c :
  http.Method (Request c) <> "OPTIONS" -> index c = -1 ->
  Next middleware c = set_index 10 (corsHeaders c).
Proof.
  intros Hm Hi. unfold Next, middleware.
  rewrite (incr_index_at (-1)) by (done || lia).
  cbn [app length Z.of_nat Pos.of_succ_nat Pos.succ Z.add Z.opp Z.pos_sub].
  pass_step pass_Logger 0 9.
  pass_step pass_Recovery 1 8.
  cors_step Hm 2 7.
  pass_step pass_requestLogging 3 6.
  pass_step pass_Recovery 4 5.
  reflexivity.
Qed.

(** A preflight: the chain stops at the CORS middleware, whatever
    handlers [rest] follow the middleware. *)
Lemma chain_preflight rest c :
  http.Method (Request c) = "OPTIONS" -> index c = -1 ->
  (length rest <= 57)%nat ->
  Next (middleware ++ rest) c
  = set_index 66 (AbortWithStatus 204 (corsHeaders (set_index 2 c))).
Proof.
  intros Hm Hi Hlen. unfold Next, middleware.
  rewrite (incr_index_at (-1)) by (done || lia).
  assert (Hn : 5 <= Z.of_nat (length (([Logger; Recovery; corsMiddleware;
      requestLoggingMiddleware; Recovery] : list HandlerFunc) ++ rest)) <= 62).
  { rewrite length_app. cbn [length]. lia. }
  set (n := Z.of_nat (length _)) in *. clearbody n.
  cbn [app]. change (-1 + 1) with 0.
  pass_step pass_Logger 0 65.
  pass_step pass_Recovery 1 64.
  apply cors_abort_level; [exact Hm | cbn; lia | lia].
Qed.

Lemma chain_preflight_bare c :
  http.Method (Request c) = "OPTIONS" -> index c = -1 ->
  Next middleware c
  = set_index 66 (AbortWithStatus 204 (corsHeaders (set_index 2 c))).
Proof.
  intros Hm Hi. rewrite <- (app_nil_r middleware).
  apply chain_preflight; [assumption | assumption | cbn; lia].
Qed.

Lemma AbortWithStatus_fresh c :
  written c = false ->
  let c' := AbortWithStatus 204 c in
  status c' = http.StatusNoContent /\ body c' = body c /\ calls c' = calls c /\
  header c' = header c /\ IsAborted c' = true.
Proof.
  intros Hw. unfold AbortWithStatus, Abort, WriteHeaderNow, Status. rewrite Hw.
  destruct (Z.eqb_spec (status c) 204) as [Hs|Hs]; cbn; repeat split; assumption.
Qed.

(** The route handlers keep the position in the chain and touch no
    header but [Content-Type]. *)
Lemma routeHandler_index w api r next c :
  index (routeHandler w api r next c) = index c.
Proof.
  destruct r;
    unfold routeHandler, final, rootHandler, healthCheck, getMovieByID,
      searchMovies, getOMDBMovie, imdbClient_GetMovie, omdbClient_Search,
      omdbClient_GetMovie;
    repeat case_match; rewrite JSON_index; reflexivity.
Qed.

Lemma routeHandler_header w api r next c key :
  key ≠ "Content-Type" ->
  header (routeHandler w api r next c) !! key = header c !! key.
Proof.
  intros Hkey.
  destruct r;
    unfold routeHandler, final, rootHandler, healthCheck, getMovieByID,
      searchMovies, getOMDBMovie, imdbClient_GetMovie, omdbClient_Search,
      omdbClient_GetMovie;
    repeat case_match; rewrite JSON_header_other by assumption; reflexivity.
Qed.

(** A request that is not a preflight and matches no route gets the
    default 404 body, and keeps the CORS headers. *)
Lemma serveError_origin c :
  http.Method (Request c) <> "OPTIONS" -> index c = -1 -> written c = false ->
  header (serveError http.StatusNotFound "404 page not found" middleware c)
    !! "Access-Control-Allow-Origin" = Some ["*"].
Proof.
  intros Hm Hi Hw. unfold serveError.
  rewrite chain_noroute by assumption.
  set (c1 := set_index 10 (corsHeaders (set_status http.StatusNotFound c))).
  assert (Hw1 : written c1 = false) by exact Hw.
  assert (Hs1 : status c1 = http.StatusNotFound) by reflexivity.
  assert (Hh1 : header c1 = header (corsHeaders c)) by reflexivity.
  rewrite Hw1, Hs1, Z.eqb_refl.
  unfold Write, WriteHeaderNow. cbn [header set_body set_written set_header].
  rewrite lookup_insert_ne by discriminate.
  clearbody c1. rewrite Hh1.
  apply corsHeaders_origin.
Qed.

(** *** CORS *)

(** C7, as the code has it: every response of the engine carries
    [Access-Control-Allow-Origin: *], except the trailing-slash redirect
    of a GET, which is sent before the middleware runs.  A request with
    the method OPTIONS is answered 204 with an empty body and without a
    client call; the CORS middleware aborts the chain, and the outcome
    is the same for any handlers placed after the middleware. *)
Theorem cors_unless_redirected w api found req :
  let c := ServeHTTP w api found req in
  (~ redirected found req ->
     header c !! "Access-Control-Allow-Origin" = Some ["*"]) /\
  (http.Method req = "OPTIONS" ->
     status c = http.StatusNoContent /\ body c = [] /\ calls c = [] /\
     IsAborted c = true /\
     forall rest : list HandlerFunc, (length rest <= 57)%nat ->
       Next (middleware ++ rest) (newContext req) = Next middleware (newContext req)).
Proof.
  cbn zeta. unfold ServeHTTP.
  destruct (String.eqb_spec (http.Method req) "OPTIONS") as [Hopt|Hopt].
  - (* preflight: never GET, so the engine takes the no-route path *)
    rewrite Hopt. cbn [String.eqb Ascii.eqb Bool.eqb].
    unfold serveError.
    rewrite (chain_preflight_bare (set_status http.StatusNotFound (newContext req)))
      by (assumption || reflexivity).
    change (written (set_index 66 (AbortWithStatus 204 (corsHeaders
      (set_index 2 (set_status http.StatusNotFound (newContext req))))))) with true.
    cbn iota.
    split; [intros _|intros _; repeat split].
    + cbn [header set_index AbortWithStatus Abort WriteHeaderNow set_written].
      replace (header (Status 204 _)) with
        (header (corsHeaders (set_index 2 (set_status http.StatusNotFound (newContext req)))))
        by (unfold Status; repeat case_match; reflexivity).
      apply corsHeaders_origin.
    + intros rest Hlen.
      rewrite (chain_preflight rest) by (assumption || reflexivity).
      rewrite chain_preflight_bare by (assumption || reflexivity).
      reflexivity.
  - split; [intros Hchain|intros Hm; contradiction].
    destruct (String.eqb_spec (http.Method req) "GET") as [Hget|Hget];
      [destruct found as [r|location|]|].
    + replace (routeHandler w api r) with
        (final (fun c => routeHandler w api r (fun c0 => c0) c))
        by (destruct r; reflexivity).
      rewrite chain_route; [|assumption|intros c; apply routeHandler_index].
      cbn [header set_index]. rewrite routeHandler_header by discriminate.
      apply corsHeaders_origin.
    + exfalso. apply Hchain. split; [assumption | by exists location].
    + apply serveError_origin; [assumption | reflexivity | reflexivity].
    + apply serveError_origin; [assumption | reflexivity | reflexivity].
Qed.

(** *** Construction *)

(** C1, at the failing input: with [OMDB_API_KEY] unset or empty,
    [NewMovieAPI] logs that the OMDB features will be disabled and yet
    stores the client that [omdb.NewClient] builds from the empty key;
    it has no branch that leaves the handle nil.  So on that API the
    search (with a non-empty [q]) and the OMDB lookup answer 503 only if
    the constructor itself returned nil; when it returned a client, the
    client is called and the answer is 500 or 200 for the search, 404 or
    200 for the lookup, where the claim says 503. *)
Theorem handlers_without_key w env req :
  os.Getenv env "OMDB_API_KEY" = "" ->
  Query (newContext req) "q" <> "" ->
  let api := fst (NewMovieAPI env) in
  let s := searchMovies w api (newContext req) in
  let o := getOMDBMovie w api (newContext req) in
  snd (NewMovieAPI env)
  = ["Warning: OMDB_API_KEY not set. OMDB features will be disabled."] /\
  omdbClient api = omdb_NewClient "" /\
  (status s = http.StatusServiceUnavailable <-> omdb_NewClient "" = nil) /\
  (status o = http.StatusServiceUnavailable <-> omdb_NewClient "" = nil) /\
  (omdb_NewClient "" <> nil ->
     calls s = [CallOmdbSearch (Query (newContext req) "q")] /\
     (status s = http.StatusInternalServerError \/ status s = http.StatusOK) /\
     calls o = [CallOmdbGetMovie (Param (newContext req) "id")] /\
     (status o = http.StatusNotFound \/ status o = http.StatusOK)).
Proof.
  intros Hkey Hq. cbn zeta. unfold NewMovieAPI. rewrite Hkey.
  cbn [fst snd omdbClient String.eqb].
  split; [reflexivity|]. split; [reflexivity|].
  unfold searchMovies, getOMDBMovie, omdbClient_Search, omdbClient_GetMovie.
  cbn [omdbClient].
  destruct (String.eqb_spec (Query (newContext req) "q") ""); [contradiction|].
  destruct (omdb_NewClient "") as [cl|]; cbn [is_nil].
  - destruct (omdb_Search w (Some cl) _) as [results [e1|]];
      destruct (omdb_GetMovie w (Some cl) _) as [movie [e2|]];
      rewrite !JSON_status, !JSON_calls by done;
      (split; [split; [discriminate|discriminate]|]);
      (split; [split; [discriminate|discriminate]|]);
      intros _; cbn [calls set_calls newContext app];
      (split; [reflexivity|]); (split; [by (left + right)|]);
      (split; [reflexivity|]); by (left + right).
  - rewrite !JSON_status by done.
    split; [done|]. split; [done|]. intros Hnil. contradiction.
Qed.

(** *** Determinism *)

Ltac same_json :=
  split;
  [ rewrite !JSON_status by done; reflexivity
  | rewrite !JSON_body by reflexivity; reflexivity ].

(** C10: the status and the body an operation produces are determined
    by the request parameter it reads and by the answer of the client
    it calls: two runs that agree on these agree on status and body. *)
Theorem handlers_deterministic op api w1 w2 r1 r2 :
  same_params op r1 r2 ->
  same_answer op api w1 w2 r1 ->
  status (run w1 api op r1) = status (run w2 api op r2) /\
  body (run w1 api op r1) = body (run w2 api op r2).
Proof.
  intros Hp Ha. destruct op; unfold run, handlerOf; cbn [same_params same_answer] in Hp, Ha.
  - unfold healthCheck. same_json.
  - unfold getMovieByID, imdbClient_GetMovie. cbv beta iota zeta.
    rewrite <- Hp, <- Ha.
    destruct (negb _); [same_json|].
    destruct (imdb_GetMovie w1 _ _) as [movie [e|]]; same_json.
  - unfold searchMovies, omdbClient_Search. cbv beta iota zeta.
    rewrite <- Hp, <- Ha.
    destruct (String.eqb _ _); [same_json|].
    destruct (is_nil _); [same_json|].
    destruct (omdb_Search w1 _ _) as [results [e|]]; same_json.
  - unfold getOMDBMovie, omdbClient_GetMovie. cbv beta iota zeta.
    rewrite <- Hp, <- Ha.
    destruct (is_nil _); [same_json|].
    destruct (omdb_GetMovie w1 _ _) as [movie [e|]]; same_json.
Qed.

(** *** The engine runs the handlers *)

Lemma JSON_same_exchange code obj c1 c2 :
  same_exchange c1 c2 -> same_exchange (JSON code obj c1) (JSON code obj c2).
Proof.
  destruct c1 as [rq1 st1 wr1 hd1 bd1 ix1 cl1], c2 as [rq2 st2 wr2 hd2 bd2 ix2 cl2].
  unfold same_exchange. cbn. intros (-> & -> & -> & -> & ->).
  unfold JSON, Status, Write, WriteHeaderNow, writeContentType.
  cbn [Request status written header body index calls
       set_status set_written set_header set_body].
  repeat (case_match;
    cbn [Request status written header body index calls
         set_status set_written set_header set_body]);
  done.
Qed.

Lemma called_same_exchange l c1 c2 :
  same_exchange c1 c2 ->
  same_exchange (set_calls (calls c1 ++ l) c1) (set_calls (calls c2 ++ l) c2).
Proof.
  unfold same_exchange. cbn. intros (-> & -> & -> & -> & ->). done.
Qed.

Lemma routeHandler_same_exchange w api r next1 next2 c1 c2 :
  same_exchange c1 c2 ->
  same_exchange (routeHandler w api r next1 c1) (routeHandler w api r next2 c2).
Proof.
  intros Hsame. pose proof Hsame as (Hreq & _).
  destruct r;
    unfold routeHandler, final, rootHandler, healthCheck, getMovieByID,
      searchMovies, getOMDBMovie, imdbClient_GetMovie, omdbClient_Search,
      omdbClient_GetMovie, Param, Query;
    rewrite ?Hreq; cbv beta iota zeta;
    repeat case_match;
    repeat first [ apply JSON_same_exchange | apply called_same_exchange ];
    assumption.
Qed.

(** A GET request that matches a route is answered by the handler of
    the route: status, body and client calls are those of the handler run
    on the fresh context of the request. *)
Lemma ServeHTTP_runs_handler w api r req :
  http.Method req = "GET" ->
  same_exchange (ServeHTTP w api (Found r) req)
                (routeHandler w api r (fun c => c) (newContext req)).
Proof.
  intros Hget. unfold ServeHTTP. rewrite Hget. cbn [String.eqb Ascii.eqb Bool.eqb].
  replace (routeHandler w api r) with
    (final (fun c => routeHandler w api r (fun c0 => c0) c))
    by (destruct r; reflexivity).
  rewrite chain_route;
    [|rewrite Hget; discriminate|intros c; apply routeHandler_index].
  set (c5 := set_index 5 (corsHeaders (newContext req))).
  assert (Hin : same_exchange c5 (newContext req)) by (repeat split).
  pose proof (routeHandler_same_exchange w api r (fun c0 => c0) (fun c0 => c0) _ _ Hin) as Hout.
  unfold final. cbv beta.
  destruct Hout as (H1 & H2 & H3 & H4 & H5).
  repeat split; cbn [Request status written body calls set_index]; assumption.
Qed.

(** ** Beyond the claims *)

(** *** What each handler answers, and when *)

Ltac status_cases :=
  rewrite ?JSON_status by done;
  unfold http.StatusOK, http.StatusBadRequest, http.StatusNotFound,
    http.StatusInternalServerError, http.StatusServiceUnavailable;
  repeat split; intros; cbn [snd is_nil] in *; unfold nil in *;
  repeat match goal with H : _ /\ _ |- _ => destruct H end;
  try reflexivity; try discriminate; try congruence.

(** The movie-by-id handler answers 400 exactly when the identifier does
    not start with [tt], 404 exactly when it does and the client answers
    with an error, and 200 exactly when it does and the client answers
    without one. *)
Theorem getMovieByID_status_table w api req :
  let id := Param (newContext req) "id" in
  let c := getMovieByID w api (newContext req) in
  (status c = 400 <-> String.prefix "tt" id = false) /\
  (status c = 404 <->
     String.prefix "tt" id = true /\
     snd (imdb_GetMovie w (imdbClient api) id) <> None) /\
  (status c = 200 <->
     String.prefix "tt" id = true /\
     snd (imdb_GetMovie w (imdbClient api) id) = None).
Proof.
  cbn zeta. unfold getMovieByID, imdbClient_GetMovie. cbv beta iota zeta.
  destruct (String.prefix "tt" (Param (newContext req) "id")); cbn [negb];
    [destruct (imdb_GetMovie w _ _) as [movie [e|]]|]; status_cases.
Qed.

(** The search handler answers 400 exactly when [q] is empty, 503
    exactly when [q] is not empty and the OMDB handle is nil, and 500 or
    200 exactly when the client was asked and answered with or without
    an error. *)
Theorem searchMovies_status_table w api req :
  let q := Query (newContext req) "q" in
  let c := searchMovies w api (newContext req) in
  (status c = 400 <-> q = "") /\
  (status c = 503 <-> q <> "" /\ omdbClient api = nil) /\
  (status c = 500 <->
     q <> "" /\ omdbClient api <> nil /\
     snd (omdb_Search w (omdbClient api) q) <> None) /\
  (status c = 200 <->
     q <> "" /\ omdbClient api <> nil /\
     snd (omdb_Search w (omdbClient api) q) = None).
Proof.
  cbn zeta. unfold searchMovies, omdbClient_Search. cbv beta iota zeta.
  destruct (String.eqb_spec (Query (newContext req) "q") "") as [Hq|Hq];
    [|destruct (omdbClient api) as [cl|] eqn:Hcl; cbn [is_nil];
      [destruct (omdb_Search w _ _) as [results [e|]]|]];
    status_cases.
Qed.

(** The OMDB handler answers 503 exactly when the OMDB handle is nil;
    otherwise 404 or 200 as the client answers with or without an error.
    The identifier is not inspected. *)
Theorem getOMDBMovie_status_table w api req :
  let id := Param (newContext req) "id" in
  let c := getOMDBMovie w api (newContext req) in
  (status c = 503 <-> omdbClient api = nil) /\
  (status c = 404 <->
     omdbClient api <> nil /\
     snd (omdb_GetMovie w (omdbClient api) id) <> None) /\
  (status c = 200 <->
     omdbClient api <> nil /\
     snd (omdb_GetMovie w (omdbClient api) id) = None).
Proof.
  cbn zeta. unfold getOMDBMovie, omdbClient_GetMovie. cbv beta iota zeta.
  destruct (omdbClient api) as [cl|] eqn:Hcl; cbn [is_nil];
    [destruct (omdb_GetMovie w _ _) as [movie [e|]]|]; status_cases.
Qed.

(** With an OMDB handle, the OMDB handler asks the client once, with the
    identifier as it came (with or without the [tt] prefix).  An answer
    without error gives 200 with [success], [source] = omdb and the
    record as [data]; an answer with an error gives 404 with the
    identifier in the body. *)
Theorem getOMDBMovie_follows_client w api req :
  let id := Param (newContext req) "id" in
  omdbClient api <> nil ->
  let c := getOMDBMovie w api (newContext req) in
  calls c = [CallOmdbGetMovie id] /\
  (forall movie, omdb_GetMovie w (omdbClient api) id = (movie, None) ->
     status c = http.StatusOK /\
     response c = Some {[ "success" := Bool true;
                          "source" := Str "omdb";
                          "data" := OmdbMovie movie ]}) /\
  (forall movie e, omdb_GetMovie w (omdbClient api) id = (movie, Some e) ->
     status c = http.StatusNotFound /\
     response c = Some {[ "error" := Str "Movie not found in OMDB";
                          "id" := Str id ]}).
Proof.
  intros id Hcl. cbn zeta. unfold getOMDBMovie, omdbClient_GetMovie. fold id.
  destruct (omdbClient api) as [cl|]; [|contradiction]. cbn [is_nil].
  destruct (omdb_GetMovie w (Some cl) id) as [movie [e|]].
  - split; [fresh_json|]. split; [intros ? [=]|].
    intros ? ? _. fresh_json.
  - split; [fresh_json|]. split; [|intros ? ? [=]].
    intros movie' [= <-]. fresh_json.
Qed.

(** With an OMDB handle and a non-empty [q], the search handler asks the
    client once, with the query as it came.  An answer without error
    gives 200 with [success], the query and the results; an answer with
    an error gives 500 with the query in the body. *)
Theorem searchMovies_follows_client w api req :
  let q := Query (newContext req) "q" in
  q <> "" -> omdbClient api <> nil ->
  let c := searchMovies w api (newContext req) in
  calls c = [CallOmdbSearch q] /\
  (forall results, omdb_Search w (omdbClient api) q = (results, None) ->
     status c = http.StatusOK /\
     response c = Some {[ "success" := Bool true;
                          "query" := Str q;
                          "results" := OmdbSearchResult results ]}) /\
  (forall results e, omdb_Search w (omdbClient api) q = (results, Some e) ->
     status c = http.StatusInternalServerError /\
     response c = Some {[ "error" := Str "Search failed";
                          "query" := Str q ]}).
Proof.
  intros q Hq Hcl. cbn zeta. unfold searchMovies, omdbClient_Search. fold q.
  destruct (String.eqb_spec q ""); [contradiction|].
  destruct (omdbClient api) as [cl|]; [|contradiction]. cbn [is_nil].
  destruct (omdb_Search w (Some cl) q) as [results [e|]].
  - split; [fresh_json|]. split; [intros ? [=]|].
    intros ? ? _. fresh_json.
  - split; [fresh_json|]. split; [|intros ? ? [=]].
    intros results' [= <-]. fresh_json.
Qed.

(** The prefix is all the movie-by-id handler checks: every identifier
    [tt ++ rest], the bare [tt] included, reaches the primary client
    unchanged, and a failed lookup is answered with that identifier in
    the 404 body. *)
Theorem getMovieByID_prefix_is_the_only_check w api req rest :
  Param (newContext req) "id" = String.append "tt" rest ->
  let c := getMovieByID w api (newContext req) in
  calls c = [CallImdbGetMovie (String.append "tt" rest)] /\
  (snd (imdb_GetMovie w (imdbClient api) (String.append "tt" rest)) <> None ->
   status c = http.StatusNotFound /\
   response c = Some {[ "error" := Str "Movie not found";
                        "id" := Str (String.append "tt" rest) ]}).
Proof.
  intros Hid. cbn zeta. unfold getMovieByID, imdbClient_GetMovie. rewrite Hid.
  assert (Hp : String.prefix "tt" (String.append "tt" rest) = true).
  { cbn. destruct rest; reflexivity. }
  rewrite Hp. cbn [negb].
  destruct (imdb_GetMovie w _ _) as [movie [e|]]; cbn [snd].
  - split; [fresh_json|]. intros _. fresh_json.
  - split; [fresh_json|]. intros Hne. contradiction.
Qed.

(** *** The strict envelope *)

Lemma strict_success obj c :
  written c = false -> body c = [] ->
  obj !! "success" = Some (Bool true) -> obj !! "error" = None ->
  strict_envelope (JSON http.StatusOK obj c).
Proof.
  intros Hw Hb Hs He. exists obj. split; [by apply JSON_response|].
  left. split; [by apply JSON_status|]. done.
Qed.

Lemma strict_failure code obj c msg :
  written c = false -> body c = [] ->
  0 < code -> code <> http.StatusOK -> bodyAllowedForStatus code = true ->
  obj !! "success" = None -> obj !! "error" = Some (Str msg) ->
  strict_envelope (JSON code obj c).
Proof.
  intros Hw Hb Hpos Hne Ha Hs He. exists obj. split; [by apply JSON_response|].
  right. split; [by rewrite JSON_status|]. split; [done|]. by exists msg.
Qed.

Ltac strict_case :=
  first
    [ apply strict_success; [reflexivity | reflexivity | vm_compute; reflexivity
                            | vm_compute; reflexivity]
    | eapply strict_failure;
      [ reflexivity | reflexivity | reflexivity | discriminate | reflexivity
      | vm_compute; reflexivity | vm_compute; reflexivity ] ].

(** In every response of the movie-by-id, search and OMDB handlers,
    [success] and [error] exclude each other: a 200 carries [success]
    true and no [error]; every other response carries an [error] message
    and no [success] field at all (not a false one). *)
Theorem handlers_respect_strict_envelope w api req :
  strict_envelope (getMovieByID w api (newContext req)) /\
  strict_envelope (searchMovies w api (newContext req)) /\
  strict_envelope (getOMDBMovie w api (newContext req)).
Proof.
  split; [|split].
  - unfold getMovieByID, imdbClient_GetMovie.
    destruct (negb _); [strict_case|].
    destruct (imdb_GetMovie _ _ _) as [movie [e|]]; strict_case.
  - unfold searchMovies, omdbClient_Search.
    destruct (String.eqb _ _); [strict_case|].
    destruct (is_nil _); [strict_case|].
    destruct (omdb_Search _ _ _) as [results [e|]]; strict_case.
  - unfold getOMDBMovie, omdbClient_GetMovie.
    destruct (is_nil _); [strict_case|].
    destruct (omdb_GetMovie _ _ _) as [movie [e|]]; strict_case.
Qed.

(** *** Client errors are not passed on *)

(** What a handler answers to a failed lookup does not depend on the
    error, nor on the record that came with it: two backends that both
    fail on a request get the same status and body. *)
Theorem client_errors_look_alike op api w1 w2 req :
  client_fails op api w1 req ->
  client_fails op api w2 req ->
  status (run w1 api op req) = status (run w2 api op req) /\
  body (run w1 api op req) = body (run w2 api op req).
Proof.
  intros H1 H2. destruct op; unfold run, handlerOf; cbn [client_fails] in H1, H2.
  - unfold healthCheck. same_json.
  - unfold getMovieByID, imdbClient_GetMovie. cbv beta iota zeta.
    destruct (negb _); [same_json|].
    destruct (imdb_GetMovie w1 _ _) as [m1 [e1|]]; [|contradiction].
    destruct (imdb_GetMovie w2 _ _) as [m2 [e2|]]; [|contradiction].
    same_json.
  - unfold searchMovies, omdbClient_Search. cbv beta iota zeta.
    destruct (String.eqb _ _); [same_json|].
    destruct (is_nil _); [same_json|].
    destruct (omdb_Search w1 _ _) as [m1 [e1|]]; [|contradiction].
    destruct (omdb_Search w2 _ _) as [m2 [e2|]]; [|contradiction].
    same_json.
  - unfold getOMDBMovie, omdbClient_GetMovie. cbv beta iota zeta.
    destruct (is_nil _); [same_json|].
    destruct (omdb_GetMovie w1 _ _) as [m1 [e1|]]; [|contradiction].
    destruct (omdb_GetMovie w2 _ _) as [m2 [e2|]]; [|contradiction].
    same_json.
Qed.

(** *** The engine, case by case *)

(** The three ways the engine serves a request. *)
Lemma ServeHTTP_route_eq w api r req :
  http.Method req = "GET" ->
  ServeHTTP w api (Found r) req
  = set_index 11 (routeHandler w api r (fun c => c)
                    (set_index 5 (corsHeaders (newContext req)))).
Proof.
  intros Hget. unfold ServeHTTP. rewrite Hget. cbn [String.eqb Ascii.eqb Bool.eqb].
  replace (routeHandler w api r) with
    (final (fun c => routeHandler w api r (fun c0 => c0) c))
    by (destruct r; reflexivity).
  rewrite chain_route;
    [|rewrite Hget; discriminate|intros c; apply routeHandler_index].
  reflexivity.
Qed.

Lemma ServeHTTP_noroute_eq w api found req :
  http.Method req <> "OPTIONS" ->
  http.Method req <> "GET" \/ found = NoMatch ->
  ServeHTTP w api found req
  = Write (TextBody "404 page not found")
      (set_header
         (<["Content-Type" := ["text/plain"]]>
            (header (corsHeaders (newContext req))))
         (set_index 10 (corsHeaders (set_status http.StatusNotFound (newContext req))))).
Proof.
  intros Hopt Hno.
  assert (Hsel : ServeHTTP w api found req
                 = serveError http.StatusNotFound "404 page not found" middleware
                     (newContext req)).
  { unfold ServeHTTP.
    destruct (String.eqb_spec (http.Method req) "GET"); [|reflexivity].
    destruct Hno as [Hno|Hno]; [contradiction | by rewrite Hno]. }
  rewrite Hsel. unfold serveError.
  rewrite chain_noroute by (assumption || reflexivity).
  set (c1 := set_index 10 (corsHeaders (set_status http.StatusNotFound (newContext req)))).
  assert (Hw1 : written c1 = false) by reflexivity.
  assert (Hs1 : status c1 = http.StatusNotFound) by reflexivity.
  rewrite Hw1, Hs1, Z.eqb_refl. reflexivity.
Qed.

Lemma ServeHTTP_preflight_eq w api found req :
  http.Method req = "OPTIONS" ->
  ServeHTTP w api found req
  = set_index 66 (AbortWithStatus 204
      (corsHeaders (set_index 2 (set_status http.StatusNotFound (newContext req))))).
Proof.
  intros Hopt. unfold ServeHTTP. rewrite Hopt. cbn [String.eqb Ascii.eqb Bool.eqb].
  unfold serveError.
  rewrite (chain_preflight_bare (set_status http.StatusNotFound (newContext req)))
    by (assumption || reflexivity).
  reflexivity.
Qed.

Lemma ServeHTTP_redirect_eq w api location req :
  http.Method req = "GET" ->
  ServeHTTP w api (TrailingSlash location) req
  = WriteHeaderNow
      (Write (RedirectNote location http.StatusMovedPermanently)
         (set_status http.StatusMovedPermanently
            (set_header
               (<["Content-Type" := ["text/html; charset=utf-8"]]>
                  (<["Location" := [location]]> ∅))
               (newContext req)))).
Proof.
  intros Hget. unfold ServeHTTP, redirectRequest, http_Redirect.
  cbn [newContext Request header set_header]. rewrite Hget.
  reflexivity.
Qed.

(** What [c.JSON] leaves in the writer. *)
Lemma JSON_written code obj c : written (JSON code obj c) = true.
Proof.
  unfold JSON, Status, Write, WriteHeaderNow, writeContentType.
  repeat case_match; reflexivity.
Qed.

Lemma JSON_content_type code obj c :
  header c !! "Content-Type" = None ->
  header (JSON code obj c) !! "Content-Type"
  = Some ["application/json; charset=utf-8"].
Proof.
  intros Hnone.
  assert (Hs : header (Status code c) = header c)
    by (unfold Status; repeat case_match; reflexivity).
  unfold JSON, Write, WriteHeaderNow, writeContentType. rewrite Hs, Hnone.
  destruct (bodyAllowedForStatus code); cbn; apply lookup_insert_eq.
Qed.

Ltac open_route r :=
  destruct r;
  unfold routeHandler, final, rootHandler, healthCheck, getMovieByID,
    searchMovies, getOMDBMovie, imdbClient_GetMovie, omdbClient_Search,
    omdbClient_GetMovie;
  cbv beta iota zeta;
  repeat case_match.

Lemma routeHandler_written w api r next c :
  written (routeHandler w api r next c) = true.
Proof. open_route r; apply JSON_written. Qed.

Lemma routeHandler_content_type w api r next c :
  header c !! "Content-Type" = None ->
  header (routeHandler w api r next c) !! "Content-Type"
  = Some ["application/json; charset=utf-8"].
Proof. intros Hnone. open_route r; apply JSON_content_type; exact Hnone. Qed.

Lemma routeHandler_one_object w api r next c :
  body c = [] ->
  exists obj, body (routeHandler w api r next c) = [JSONBody obj].
Proof.
  intros Hnil. open_route r; eexists;
    (rewrite JSON_body by reflexivity); cbn [body set_calls]; rewrite Hnil;
    reflexivity.
Qed.

Lemma routeHandler_calls w api r next req :
  let c := routeHandler w api r next (newContext req) in
  calls c = [] \/
  exists call, expectedCall r req = Some call /\ calls c = [call].
Proof.
  cbn zeta. open_route r; rewrite JSON_calls;
    first [ left; reflexivity | right; eexists; split; reflexivity ].
Qed.

Lemma routeHandler_status w api r next req :
  status (routeHandler w api r next (newContext req)) ∈ statusesOf r.
Proof.
  open_route r; rewrite JSON_status by done; cbn [statusesOf];
    unfold http.StatusOK, http.StatusBadRequest, http.StatusNotFound,
      http.StatusInternalServerError, http.StatusServiceUnavailable;
    repeat first [ apply list_elem_of_here | apply list_elem_of_further ].
Qed.

(** The context the handler of a route receives shows the same exchange
    as the fresh context of the request. *)
Lemma route_context_fresh req :
  same_exchange (set_index 5 (corsHeaders (newContext req))) (newContext req).
Proof. repeat split. Qed.

Lemma corsHeaders_pair c key value :
  (key, value) ∈ corsPairs -> header (corsHeaders c) !! key = Some [value].
Proof.
  unfold corsPairs. rewrite !elem_of_cons, elem_of_nil.
  unfold corsHeaders, Header, http.Set_.
  intros [[= -> ->]|[[= -> ->]|[[= -> ->]|[]]]]; cbn;
    rewrite ?lookup_insert_eq; try reflexivity;
    rewrite ?(lookup_insert_ne _ _ _ _) by discriminate;
    rewrite ?lookup_insert_eq; try reflexivity;
    rewrite ?(lookup_insert_ne _ _ _ _) by discriminate;
    apply lookup_insert_eq.
Qed.

Lemma corsHeaders_other c key :
  key ∉ corsPairs.*1 -> header (corsHeaders c) !! key = header c !! key.
Proof.
  unfold corsPairs. cbn [fmap list_fmap fst].
  rewrite !not_elem_of_cons. intros (H1 & H2 & H3 & _).
  unfold corsHeaders, Header, http.Set_. cbn.
  by rewrite !lookup_insert_ne.
Qed.

Lemma corsPairs_not_content_type key value :
  (key, value) ∈ corsPairs -> key ≠ "Content-Type".
Proof.
  unfold corsPairs. rewrite !elem_of_cons, elem_of_nil.
  intros [[= -> ->]|[[= -> ->]|[[= -> ->]|[]]]]; discriminate.
Qed.

(** *** The engine: what every response has *)

(** Every response of the engine that has passed the middleware, that
    is every response but the trailing-slash redirect of a GET, carries
    the three CORS headers with their fixed values: the answers of the
    handlers, the default 404 and the 204 of a preflight alike. *)
Theorem ServeHTTP_cors_headers w api found req key value :
  ~ redirected found req ->
  (key, value) ∈ corsPairs ->
  header (ServeHTTP w api found req) !! key = Some [value].
Proof.
  intros Hchain Hin. pose proof (corsPairs_not_content_type _ _ Hin) as Hct.
  destruct (String.eqb_spec (http.Method req) "OPTIONS") as [Hopt|Hopt].
  - rewrite ServeHTTP_preflight_eq by assumption.
    cbn [header set_index AbortWithStatus Abort WriteHeaderNow set_written].
    replace (header (Status 204 _)) with
      (header (corsHeaders (set_index 2 (set_status http.StatusNotFound (newContext req)))))
      by (unfold Status; repeat case_match; reflexivity).
    by apply corsHeaders_pair.
  - destruct (String.eqb_spec (http.Method req) "GET") as [Hget|Hget];
      [destruct found as [r|location|]|].
    + rewrite ServeHTTP_route_eq by assumption. cbn [header set_index].
      rewrite routeHandler_header by assumption. by apply corsHeaders_pair.
    + exfalso. apply Hchain. split; [assumption | by exists location].
    + rewrite ServeHTTP_noroute_eq by (assumption || (right; reflexivity)).
      unfold Write, WriteHeaderNow. cbn [header set_body set_written set_header].
      rewrite lookup_insert_ne by congruence. by apply corsHeaders_pair.
    + rewrite ServeHTTP_noroute_eq by (assumption || (left; assumption)).
      unfold Write, WriteHeaderNow. cbn [header set_body set_written set_header].
      rewrite lookup_insert_ne by congruence. by apply corsHeaders_pair.
Qed.

(** Serving a request calls a client at most once, and only for a GET
    that matches the movie, search or OMDB route: the call is then the
    one of that route, with the parameter of the request. *)
Theorem ServeHTTP_at_most_one_call w api found req :
  let c := ServeHTTP w api found req in
  calls c = [] \/
  exists r call,
    http.Method req = "GET" /\ found = Found r /\
    expectedCall r req = Some call /\ calls c = [call].
Proof.
  cbn zeta.
  destruct (String.eqb_spec (http.Method req) "OPTIONS") as [Hopt|Hopt].
  { left. rewrite ServeHTTP_preflight_eq by assumption. reflexivity. }
  destruct (String.eqb_spec (http.Method req) "GET") as [Hget|Hget];
    [destruct found as [r|location|]|].
  - rewrite ServeHTTP_route_eq by assumption. cbn [calls set_index].
    pose proof (routeHandler_same_exchange w api r (fun c => c) (fun c => c)
                  _ _ (route_context_fresh req)) as (_ & _ & _ & _ & Hcalls).
    rewrite Hcalls.
    destruct (routeHandler_calls w api r (fun c => c) req) as [Hnone|(call & He & Hone)].
    + left. exact Hnone.
    + right. exists r, call. done.
  - left. rewrite ServeHTTP_redirect_eq by assumption. reflexivity.
  - left. rewrite ServeHTTP_noroute_eq by (assumption || (right; reflexivity)).
    reflexivity.
  - left. rewrite ServeHTTP_noroute_eq by (assumption || (left; assumption)).
    reflexivity.
Qed.

(** The status of a response is 204 for a preflight, 404 for another
    method than GET, and for a GET one of the codes of the route, 301
    for a trailing-slash redirect, or 404 without a route; so it is
    always one of 200, 204, 301, 400, 404, 500 and 503. *)
Theorem ServeHTTP_status_codes w api found req :
  let c := ServeHTTP w api found req in
  status c ∈
    (if String.eqb (http.Method req) "OPTIONS" then [204]
     else if String.eqb (http.Method req) "GET" then
       match found with
       | Found r => statusesOf r
       | TrailingSlash _ => [301]
       | NoMatch => [404]
       end
     else [404]) /\
  status c ∈ [200; 204; 301; 400; 404; 500; 503].
Proof.
  cbn zeta.
  destruct (String.eqb_spec (http.Method req) "OPTIONS") as [Hopt|Hopt].
  { rewrite ServeHTTP_preflight_eq by assumption.
    change (status _) with 204. split; set_solver. }
  destruct (String.eqb_spec (http.Method req) "GET") as [Hget|Hget];
    [destruct found as [r|location|]|].
  - rewrite ServeHTTP_route_eq by assumption. cbn [status set_index].
    pose proof (routeHandler_same_exchange w api r (fun c => c) (fun c => c)
                  _ _ (route_context_fresh req)) as (_ & Hstatus & _).
    rewrite Hstatus.
    pose proof (routeHandler_status w api r (fun c => c) req) as Hin.
    split; [exact Hin|].
    revert Hin. generalize (status (routeHandler w api r (fun c => c) (newContext req))).
    intros z. destruct r; cbn [statusesOf]; rewrite !elem_of_cons, !elem_of_nil; tauto.
  - rewrite ServeHTTP_redirect_eq by assumption.
    change (status _) with 301. split; set_solver.
  - rewrite ServeHTTP_noroute_eq by (assumption || (right; reflexivity)).
    change (status _) with 404. split; set_solver.
  - rewrite ServeHTTP_noroute_eq by (assumption || (left; assumption)).
    change (status _) with 404. split; set_solver.
Qed.

(** Only GET reaches a handler.  A request with any other method, the
    POST, PUT and DELETE that the CORS headers list included, is answered
    without a client call and without a JSON object: 204 for OPTIONS and
    404 for the rest. *)
Theorem ServeHTTP_other_methods w api found req :
  http.Method req <> "GET" ->
  let c := ServeHTTP w api found req in
  calls c = [] /\ response c = None /\
  (http.Method req = "OPTIONS" -> status c = 204 /\ body c = []) /\
  (http.Method req <> "OPTIONS" ->
     status c = 404 /\ body c = [TextBody "404 page not found"]).
Proof.
  intros Hget. cbn zeta.
  destruct (String.eqb_spec (http.Method req) "OPTIONS") as [Hopt|Hopt].
  - rewrite ServeHTTP_preflight_eq by assumption.
    repeat split; intros; (reflexivity || contradiction).
  - rewrite ServeHTTP_noroute_eq by (assumption || (left; assumption)).
    repeat split; intros; (reflexivity || contradiction).
Qed.

(** A request that is not a preflight and has no route (another method,
    or a path for which the route tree has neither a route nor a
    trailing-slash recommendation) gets gin's default answer: 404, the
    plain text [404 page not found], and no client call. *)
Theorem ServeHTTP_without_route w api found req :
  http.Method req <> "OPTIONS" ->
  http.Method req <> "GET" \/ found = NoMatch ->
  let c := ServeHTTP w api found req in
  status c = http.StatusNotFound /\
  body c = [TextBody "404 page not found"] /\
  header c !! "Content-Type" = Some ["text/plain"] /\
  written c = true /\ calls c = [].
Proof.
  intros Hopt Hno. cbn zeta. rewrite ServeHTTP_noroute_eq by assumption.
  split; [reflexivity|]. split; [reflexivity|]. split; [|split; reflexivity].
  unfold Write, WriteHeaderNow.
  cbn [header set_body set_written set_header]. apply lookup_insert_eq.
Qed.

(** A GET that matches a route is answered with exactly one JSON object,
    sent as [application/json]. *)
Theorem ServeHTTP_route_answers_json w api r req :
  http.Method req = "GET" ->
  let c := ServeHTTP w api (Found r) req in
  (exists obj, body c = [JSONBody obj]) /\
  header c !! "Content-Type" = Some ["application/json; charset=utf-8"] /\
  written c = true.
Proof.
  intros Hget. cbn zeta. rewrite ServeHTTP_route_eq by assumption.
  cbn [body header written set_index]. split; [|split].
  - apply routeHandler_one_object. reflexivity.
  - apply routeHandler_content_type. cbn [header set_index].
    rewrite corsHeaders_other; [reflexivity|].
    unfold corsPairs. cbn [fmap list_fmap fst].
    rewrite !not_elem_of_cons. repeat split; try discriminate. apply not_elem_of_nil.
  - apply routeHandler_written.
Qed.

(** The engine adds nothing to what a handler answers but the headers:
    for a GET that matches a route, status, body and client calls are
    those of the handler run on the fresh context of the request. *)
Theorem ServeHTTP_answers_as_handler w api r req :
  http.Method req = "GET" ->
  let c := ServeHTTP w api (Found r) req in
  let c0 := routeHandler w api r (fun c => c) (newContext req) in
  status c = status c0 /\ body c = body c0 /\ calls c = calls c0 /\
  (forall key, key ∉ "Content-Type" :: corsPairs.*1 ->
     header c !! key = None).
Proof.
  intros Hget. cbn zeta.
  destruct (ServeHTTP_runs_handler w api r req Hget) as (_ & Hs & _ & Hb & Hc).
  split; [exact Hs|]. split; [exact Hb|]. split; [exact Hc|].
  intros key Hkey. apply not_elem_of_cons in Hkey as [Hct Hcors].
  rewrite ServeHTTP_route_eq by assumption. cbn [header set_index].
  rewrite routeHandler_header by assumption. cbn [header set_index].
  rewrite corsHeaders_other by assumption. reflexivity.
Qed.


(** *** The CORS middleware *)

(** On a request that is not a preflight the CORS middleware hands the
    rest of the chain the context it received with the three headers
    set: whatever these headers held before is replaced, every other
    header and the rest of the context stay as they were, and setting
    the headers twice changes nothing more. *)
Theorem corsMiddleware_only_sets_headers next c :
  http.Method (Request c) <> "OPTIONS" ->
  corsMiddleware next c = next (corsHeaders c) /\
  (forall key value, (key, value) ∈ corsPairs ->
     header (corsHeaders c) !! key = Some [value]) /\
  (forall key, key ∉ corsPairs.*1 ->
     header (corsHeaders c) !! key = header c !! key) /\
  same_exchange (corsHeaders c) c /\ index (corsHeaders c) = index c /\
  corsHeaders (corsHeaders c) = corsHeaders c.
Proof.
  intros Hopt. split.
  { rewrite corsMiddleware_unfold.
    destruct (String.eqb_spec (http.Method (Request c)) "OPTIONS"); [contradiction|].
    reflexivity. }
  split; [intros; by apply corsHeaders_pair|].
  split; [intros; by apply corsHeaders_other|].
  split; [repeat split|]. split; [reflexivity|].
  unfold corsHeaders, Header, http.Set_. cbn.
  unfold set_header. cbn. f_equal.
  apply map_eq. intros key.
  destruct (decide (key = "Access-Control-Allow-Headers")) as [->|H1];
    [by rewrite !lookup_insert_eq|].
  rewrite (lookup_insert_ne _ _ key) by done.
  destruct (decide (key = "Access-Control-Allow-Methods")) as [->|H2].
  { rewrite lookup_insert_eq, (lookup_insert_ne _ _ "Access-Control-Allow-Methods") by done.
    by rewrite lookup_insert_eq. }
  rewrite (lookup_insert_ne _ _ key) by done.
  destruct (decide (key = "Access-Control-Allow-Origin")) as [->|H3].
  { rewrite lookup_insert_eq.
    rewrite !(lookup_insert_ne _ _ "Access-Control-Allow-Origin") by done.
    by rewrite lookup_insert_eq. }
  by rewrite !lookup_insert_ne.
Qed.

(** *** Set-up *)

(** [NewMovieAPI] depends on the environment through [OMDB_API_KEY]
    alone, and does not tell an unset key from an empty one: both give
    the same API, built from the empty key, and the same warning.  The
    warning is logged exactly when the key is empty. *)
Theorem NewMovieAPI_reads_only_the_key env :
  NewMovieAPI (delete "OMDB_API_KEY" env) = NewMovieAPI (<["OMDB_API_KEY" := ""]> env) /\
  (snd (NewMovieAPI env) <> [] <-> os.Getenv env "OMDB_API_KEY" = "") /\
  omdbClient (fst (NewMovieAPI env)) = omdb_NewClient (os.Getenv env "OMDB_API_KEY") /\
  (forall env',
     os.Getenv env' "OMDB_API_KEY" = os.Getenv env "OMDB_API_KEY" ->
     NewMovieAPI env' = NewMovieAPI env).
Proof.
  split; [|split; [|split]].
  - unfold NewMovieAPI, os.Getenv. by rewrite lookup_delete_eq, lookup_insert_eq.
  - unfold NewMovieAPI. cbn [snd].
    destruct (String.eqb_spec (os.Getenv env "OMDB_API_KEY") ""); split;
      intros; congruence.
  - reflexivity.
  - intros env' Hsame. unfold NewMovieAPI. by rewrite Hsame.
Qed.

(** The server always binds to [0.0.0.0] with a non-empty port: the
    value of [PORT] as it is, unchecked, or 8080 when [PORT] is unset or
    empty. *)
Theorem listenAddr_port env :
  String.prefix "0.0.0.0:" (listenAddr env) = true /\
  listenAddr env <> "0.0.0.0:" /\
  (os.Getenv env "PORT" = "" -> listenAddr env = "0.0.0.0:8080") /\
  (os.Getenv env "PORT" <> "" ->
     listenAddr env = String.append "0.0.0.0:" (os.Getenv env "PORT")) /\
  listenAddr (delete "PORT" env) = listenAddr (<["PORT" := ""]> env).
Proof.
  unfold listenAddr.
  split; [|split; [|split; [|split]]].
  - cbn. by destruct (if String.eqb _ _ then _ else _).
  - destruct (String.eqb_spec (os.Getenv env "PORT") "") as [He|Hne]; cbn.
    + discriminate.
    + intros [= Hport]. contradiction.
  - intros He. rewrite He. reflexivity.
  - intros Hne. destruct (String.eqb_spec (os.Getenv env "PORT") ""); [contradiction|].
    reflexivity.
  - unfold os.Getenv. by rewrite lookup_delete_eq, lookup_insert_eq.
Qed.

(** The root endpoint answers every request with 200 and the same
    object, calling no client: five fields, of which [endpoints] lists
    exactly the four routes of the API and [examples] one path for each;
    its [version] is the one the health check reports. *)
Theorem rootHandler_documents_the_routes req :
  let c := rootHandler (newContext req) in
  status c = http.StatusOK /\ calls c = [] /\
  exists obj endpoints examples,
    response c = Some obj /\
    dom obj = {[ "message"; "version"; "description"; "endpoints"; "examples" ]} /\
    obj !! "endpoints" = Some (H endpoints) /\
    dom endpoints = {[ "health"; "movie_by_id"; "search"; "omdb_movie" ]} /\
    obj !! "examples" = Some (H examples) /\
    size examples = 4%nat /\
    obj !! "version" = healthBody !! "version".
Proof.
  cbn zeta. unfold rootHandler. split; [fresh_json|]. split; [fresh_json|].
  eexists _, _, _. split; [apply JSON_response; reflexivity|].
  split; [vm_compute; reflexivity|].
  split; [vm_compute; reflexivity|].
  split; [vm_compute; reflexivity|].
  split; [vm_compute; reflexivity|].
  split; vm_compute; reflexivity.
Qed.

End Properties.

(** ** Concrete runs *)

#[local] Existing Instance Sample.lib.

(** [GET /api/v1/movies/xyz123] is refused with the hint. *)
Lemma getMovieByID_rejects_other_prefix_witness :
  String.prefix "tt" (Param (newContext (Sample.get "xyz123" "")) "id") = false /\
  status (getMovieByID Sample.world Sample.fromEmptyEnv
            (newContext (Sample.get "xyz123" ""))) = 400 /\
  calls (getMovieByID Sample.world Sample.fromEmptyEnv
            (newContext (Sample.get "xyz123" ""))) = [].
Proof.
  split; [reflexivity|].
  pose proof (getMovieByID_rejects_other_prefix Sample.world Sample.fromEmptyEnv
                (Sample.get "xyz123" "") eq_refl) as (Hs & _ & Hc).
  split; [exact Hs | exact Hc].
Defined.

(** [GET /api/v1/movies/tt0111161] with a healthy primary client. *)
Lemma getMovieByID_follows_client_witness :
  String.prefix "tt" (Param (newContext (Sample.get "tt0111161" "")) "id") = true /\
  status (getMovieByID Sample.world Sample.fromEmptyEnv
            (newContext (Sample.get "tt0111161" ""))) = 200 /\
  response (getMovieByID Sample.world Sample.fromEmptyEnv
            (newContext (Sample.get "tt0111161" "")))
  = Some {[ "success" := Bool true;
            "data" := ImdbMovie (Some "The Shawshank Redemption") ]}.
Proof.
  split; [reflexivity|].
  pose proof (getMovieByID_follows_client Sample.world Sample.fromEmptyEnv
                (Sample.get "tt0111161" "") eq_refl) as (_ & Hok & _).
  exact (Hok (Some "The Shawshank Redemption") eq_refl).
Defined.

(** [GET /api/v1/movies/search] without [q]. *)
Lemma searchMovies_requires_query_witness :
  Query (newContext (Sample.bare "GET")) "q" = "" /\
  status (searchMovies Sample.world Sample.fromEmptyEnv
            (newContext (Sample.bare "GET"))) = 400 /\
  calls (searchMovies Sample.world Sample.fromEmptyEnv
            (newContext (Sample.bare "GET"))) = [].
Proof.
  split; [reflexivity|].
  exact (searchMovies_requires_query Sample.world Sample.fromEmptyEnv
           (Sample.bare "GET") eq_refl).
Defined.

(** The same request against an API without an OMDB handle. *)
Lemma searchMovies_query_checked_first_witness :
  omdbClient Sample.noOMDB = nil /\
  Query (newContext (Sample.bare "GET")) "q" = "" /\
  status (searchMovies Sample.world Sample.noOMDB
            (newContext (Sample.bare "GET"))) = 400.
Proof.
  split; [reflexivity|]. split; [reflexivity|].
  exact (proj1 (searchMovies_query_checked_first Sample.world Sample.noOMDB
                  (Sample.bare "GET") eq_refl eq_refl)).
Defined.

(** An API without an OMDB handle, asked for a title and for a search. *)
Lemma omdb_unavailable_without_client_witness :
  omdbClient Sample.noOMDB = nil /\
  Query (newContext (Sample.get "tt0111161" "inception")) "q" <> "" /\
  status (getOMDBMovie Sample.world Sample.noOMDB
            (newContext (Sample.get "tt0111161" "inception"))) = 503 /\
  status (searchMovies Sample.world Sample.noOMDB
            (newContext (Sample.get "tt0111161" "inception"))) = 503.
Proof.
  assert (Hq : Query (newContext (Sample.get "tt0111161" "inception")) "q" <> "")
    by discriminate.
  split; [reflexivity|]. split; [exact Hq|].
  pose proof (omdb_unavailable_without_client Sample.world Sample.noOMDB
                (Sample.get "tt0111161" "inception") eq_refl) as (Hlookup & Hsearch & _).
  split; [exact (proj1 Hlookup) | exact (proj1 (Hsearch Hq))].
Defined.

(** [GET /api/v1/movies/search?q=inception] on the API built without
    [OMDB_API_KEY] (sample library and backend): the client is called
    with the empty key and its failure is reported as 500. *)
Example search_without_key :
  let c := searchMovies Sample.world Sample.fromEmptyEnv
             (newContext (Sample.get "" "inception")) in
  snd (NewMovieAPI (lib := Sample.lib) ∅)
  = ["Warning: OMDB_API_KEY not set. OMDB features will be disabled."] /\
  status c = 500 /\ calls c = [CallOmdbSearch "inception"].
Proof. vm_compute. repeat split. Qed.

(** An OPTIONS request to the search route. *)
Lemma cors_unless_redirected_witness :
  http.Method (Sample.bare "OPTIONS") = "OPTIONS" /\
  header (ServeHTTP Sample.world Sample.fromEmptyEnv (Found RouteSearch)
            (Sample.bare "OPTIONS")) !! "Access-Control-Allow-Origin" = Some ["*"] /\
  status (ServeHTTP Sample.world Sample.fromEmptyEnv (Found RouteSearch)
            (Sample.bare "OPTIONS")) = 204.
Proof.
  split; [reflexivity|].
  pose proof (cors_unless_redirected Sample.world Sample.fromEmptyEnv
                (Found RouteSearch) (Sample.bare "OPTIONS")) as (Horigin & Hopt).
  split; [apply Horigin; intros [Hget _]; discriminate Hget
         | exact (proj1 (Hopt eq_refl))].
Defined.

(** Two different requests for the same title, against two backends
    that agree on it. *)
Lemma handlers_deterministic_witness :
  let r1 := Sample.get "tt0111161" "" in
  let r2 := http.mkRequest "GET" [("lang", "en"); ("id", "tt0111161")] ∅ in
  same_params OpMovieByID r1 r2 /\
  same_answer OpMovieByID Sample.fromEmptyEnv Sample.world Sample.imdbOnly r1 /\
  status (run Sample.world Sample.fromEmptyEnv OpMovieByID r1)
  = status (run Sample.imdbOnly Sample.fromEmptyEnv OpMovieByID r2) /\
  body (run Sample.world Sample.fromEmptyEnv OpMovieByID r1)
  = body (run Sample.imdbOnly Sample.fromEmptyEnv OpMovieByID r2).
Proof.
  cbn zeta.
  split; [reflexivity|]. split; [reflexivity|].
  exact (handlers_deterministic OpMovieByID Sample.fromEmptyEnv Sample.world
           Sample.imdbOnly (Sample.get "tt0111161" "")
           (http.mkRequest "GET" [("lang", "en"); ("id", "tt0111161")] ∅)
           eq_refl eq_refl).
Defined.

(** A search through the engine, with a key configured. *)
Example search_through_engine :
  let api := fst (NewMovieAPI (lib := Sample.lib) {[ "OMDB_API_KEY" := "k3y" ]}) in
  let c := ServeHTTP Sample.world api (Found RouteSearch) (Sample.get "" "inception") in
  status c = 200 /\
  response c = Some {[ "success" := Bool true;
                       "query" := Str "inception";
                       "results" := OmdbSearchResult (Some ["inception"]) ]} /\
  calls c = [CallOmdbSearch "inception"] /\
  http.Get "Access-Control-Allow-Origin" (header c) = "*".
Proof. vm_compute. repeat split. Qed.

(** A path that matches no route. *)
Example no_route :
  let c := ServeHTTP Sample.world Sample.fromEmptyEnv NoMatch (Sample.bare "GET") in
  status c = 404 /\ body c = [TextBody "404 page not found"] /\ calls c = [].
Proof. vm_compute. repeat split. Qed.

(** ** Concrete runs, continued *)

(** An OMDB lookup with a key configured; the identifier has no [tt]
    prefix and is passed on all the same. *)
Lemma getOMDBMovie_follows_client_witness :
  let api := fst (NewMovieAPI (lib := Sample.lib) {[ "OMDB_API_KEY" := "k3y" ]}) in
  let c := getOMDBMovie Sample.world api (newContext (Sample.get "xyz123" "")) in
  omdbClient api <> nil /\
  calls c = [CallOmdbGetMovie "xyz123"] /\ status c = 200.
Proof.
  cbn zeta.
  assert (Hcl : omdbClient (fst (NewMovieAPI (lib := Sample.lib)
                                   {[ "OMDB_API_KEY" := "k3y" ]})) <> nil)
    by discriminate.
  split; [exact Hcl|].
  pose proof (getOMDBMovie_follows_client Sample.world _ (Sample.get "xyz123" "") Hcl)
    as (Hcalls & Hok & _).
  split; [exact Hcalls | exact (proj1 (Hok (Some "xyz123") eq_refl))].
Defined.

(** A search that the backend refuses: 500 with the query in the body. *)
Lemma searchMovies_follows_client_witness :
  let c := searchMovies Sample.down Sample.fromEmptyEnv
             (newContext (Sample.get "" "inception")) in
  Query (newContext (Sample.get "" "inception")) "q" <> "" /\
  omdbClient Sample.fromEmptyEnv <> nil /\
  calls c = [CallOmdbSearch "inception"] /\
  response c = Some {[ "error" := Str "Search failed"; "query" := Str "inception" ]}.
Proof.
  cbn zeta.
  assert (Hq : Query (newContext (Sample.get "" "inception")) "q" <> "") by discriminate.
  assert (Hcl : omdbClient Sample.fromEmptyEnv <> nil) by discriminate.
  split; [exact Hq|]. split; [exact Hcl|].
  pose proof (searchMovies_follows_client Sample.down Sample.fromEmptyEnv
                (Sample.get "" "inception") Hq Hcl) as (Hcalls & _ & Hfail).
  split; [exact Hcalls | exact (proj2 (Hfail None "timeout" eq_refl))].
Defined.

(** The bare prefix [tt] is a valid identifier for the handler. *)
Lemma getMovieByID_prefix_is_the_only_check_witness :
  let c := getMovieByID Sample.world Sample.fromEmptyEnv
             (newContext (Sample.get "tt" "")) in
  Param (newContext (Sample.get "tt" "")) "id" = String.append "tt" "" /\
  calls c = [CallImdbGetMovie "tt"] /\ status c = 404.
Proof.
  cbn zeta. split; [reflexivity|].
  pose proof (getMovieByID_prefix_is_the_only_check Sample.world Sample.fromEmptyEnv
                (Sample.get "tt" "") "" eq_refl) as (Hcalls & Hfail).
  split; [exact Hcalls|].
  refine (proj1 (Hfail _)). discriminate.
Defined.

(** An unknown title against one backend, a timeout against another. *)
Lemma client_errors_look_alike_witness :
  let req := Sample.get "tt9999999" "" in
  client_fails OpMovieByID Sample.fromEmptyEnv Sample.world req /\
  client_fails OpMovieByID Sample.fromEmptyEnv Sample.down req /\
  body (run Sample.world Sample.fromEmptyEnv OpMovieByID req)
  = body (run Sample.down Sample.fromEmptyEnv OpMovieByID req).
Proof.
  cbn zeta.
  assert (H1 : client_fails OpMovieByID Sample.fromEmptyEnv Sample.world
                 (Sample.get "tt9999999" "")) by discriminate.
  assert (H2 : client_fails OpMovieByID Sample.fromEmptyEnv Sample.down
                 (Sample.get "tt9999999" "")) by discriminate.
  split; [exact H1|]. split; [exact H2|].
  exact (proj2 (client_errors_look_alike OpMovieByID Sample.fromEmptyEnv
                  Sample.world Sample.down (Sample.get "tt9999999" "") H1 H2)).
Defined.

(** The methods header on a default 404. *)
Lemma ServeHTTP_cors_headers_witness :
  ~ redirected NoMatch (Sample.bare "GET") /\
  ("Access-Control-Allow-Methods", "GET, POST, PUT, DELETE, OPTIONS") ∈ corsPairs /\
  header (ServeHTTP Sample.world Sample.fromEmptyEnv NoMatch (Sample.bare "GET"))
    !! "Access-Control-Allow-Methods" = Some ["GET, POST, PUT, DELETE, OPTIONS"].
Proof.
  assert (Hin : ("Access-Control-Allow-Methods", "GET, POST, PUT, DELETE, OPTIONS")
                ∈ corsPairs)
    by (apply list_elem_of_further, list_elem_of_here).
  assert (Hchain : ~ redirected NoMatch (Sample.bare "GET"))
    by (intros (_ & location & Hfound); discriminate Hfound).
  split; [exact Hchain|]. split; [exact Hin|].
  exact (ServeHTTP_cors_headers Sample.world Sample.fromEmptyEnv NoMatch
           (Sample.bare "GET") _ _ Hchain Hin).
Defined.

(** A POST to the search route. *)
Lemma ServeHTTP_other_methods_witness :
  let req := http.mkRequest "POST" [] {[ "q" := ["inception"] ]} in
  http.Method req <> "GET" /\
  status (ServeHTTP Sample.world Sample.fromEmptyEnv (Found RouteSearch) req) = 404 /\
  calls (ServeHTTP Sample.world Sample.fromEmptyEnv (Found RouteSearch) req) = [].
Proof.
  cbn zeta.
  assert (Hm : http.Method (http.mkRequest "POST" [] {[ "q" := ["inception"] ]}) <> "GET")
    by discriminate.
  split; [exact Hm|].
  pose proof (ServeHTTP_other_methods Sample.world Sample.fromEmptyEnv (Found RouteSearch)
                (http.mkRequest "POST" [] {[ "q" := ["inception"] ]}) Hm)
    as (Hcalls & _ & _ & Hrest).
  split; [|exact Hcalls].
  refine (proj1 (Hrest _)). discriminate.
Defined.

(** A GET for a path that matches nothing. *)
Lemma ServeHTTP_without_route_witness :
  http.Method (Sample.bare "GET") <> "OPTIONS" /\
  status (ServeHTTP Sample.world Sample.fromEmptyEnv NoMatch (Sample.bare "GET")) = 404 /\
  header (ServeHTTP Sample.world Sample.fromEmptyEnv NoMatch (Sample.bare "GET"))
    !! "Content-Type" = Some ["text/plain"].
Proof.
  assert (Hm : http.Method (Sample.bare "GET") <> "OPTIONS") by discriminate.
  split; [exact Hm|].
  pose proof (ServeHTTP_without_route Sample.world Sample.fromEmptyEnv NoMatch
                (Sample.bare "GET") Hm (or_intror eq_refl)) as (Hs & _ & Hct & _).
  split; [exact Hs | exact Hct].
Defined.

(** The refusal of a malformed identifier is JSON too. *)
Lemma ServeHTTP_route_answers_json_witness :
  http.Method (Sample.get "xyz123" "") = "GET" /\
  header (ServeHTTP Sample.world Sample.fromEmptyEnv (Found RouteMovieByID)
            (Sample.get "xyz123" "")) !! "Content-Type"
  = Some ["application/json; charset=utf-8"].
Proof.
  split; [reflexivity|].
  exact (proj1 (proj2 (ServeHTTP_route_answers_json Sample.world Sample.fromEmptyEnv
                         RouteMovieByID (Sample.get "xyz123" "") eq_refl))).
Defined.

(** The health check through the engine. *)
Lemma ServeHTTP_answers_as_handler_witness :
  http.Method (Sample.bare "GET") = "GET" /\
  body (ServeHTTP Sample.down Sample.noOMDB (Found RouteHealth) (Sample.bare "GET"))
  = [JSONBody healthBody].
Proof.
  split; [reflexivity|].
  pose proof (ServeHTTP_answers_as_handler Sample.down Sample.noOMDB RouteHealth
                (Sample.bare "GET") eq_refl) as (_ & Hbody & _).
  rewrite Hbody. reflexivity.
Defined.

(** The middleware replaces an origin set earlier in the chain. *)
Lemma corsMiddleware_only_sets_headers_witness :
  let c := Header "Access-Control-Allow-Origin" "https://example.org"
             (newContext (Sample.bare "GET")) in
  http.Method (Request c) <> "OPTIONS" /\
  header (corsMiddleware (fun c0 => c0) c) !! "Access-Control-Allow-Origin" = Some ["*"].
Proof.
  cbn zeta.
  set (c := Header "Access-Control-Allow-Origin" "https://example.org"
              (newContext (Sample.bare "GET"))).
  assert (Hm : http.Method (Request c) <> "OPTIONS") by discriminate.
  split; [exact Hm|].
  pose proof (corsMiddleware_only_sets_headers (fun c0 => c0) c Hm) as (Hrun & Hset & _).
  rewrite Hrun. apply Hset. apply list_elem_of_here.
Defined.

(** ** Concrete runs: a missing key, a trailing slash *)

(** [GET /api/v1/movies/search?q=inception] with no key in the
    environment: the sample constructor returns a client, the client is
    called, and its refusal is answered 500. *)
Lemma handlers_without_key_witness :
  let req := Sample.get "tt0111161" "inception" in
  os.Getenv (∅ : gmap string string) "OMDB_API_KEY" = "" /\
  Query (newContext req) "q" <> "" /\
  status (searchMovies Sample.world Sample.fromEmptyEnv (newContext req)) = 500 /\
  calls (searchMovies Sample.world Sample.fromEmptyEnv (newContext req))
  = [CallOmdbSearch "inception"].
Proof.
  cbn zeta.
  assert (Hq : Query (newContext (Sample.get "tt0111161" "inception")) "q" <> "")
    by discriminate.
  split; [reflexivity|]. split; [exact Hq|].
  pose proof (handlers_without_key Sample.world ∅ (Sample.get "tt0111161" "inception")
                eq_refl Hq) as (_ & _ & _ & _ & Hbuilt).
  assert (Hcl : @omdb_NewClient Sample.lib "" <> nil) by discriminate.
  destruct (Hbuilt Hcl) as (Hcalls & Hstatus & _).
  split; [|exact Hcalls].
  destruct Hstatus as [H500|H200]; [exact H500|].
  vm_compute in H200. discriminate H200.
Defined.

(** [GET /api/v1/health/]: the redirect carries no CORS header. *)
Lemma redirect_without_cors_header :
  let c := ServeHTTP Sample.world Sample.fromEmptyEnv
             (TrailingSlash "/api/v1/health") (Sample.bare "GET") in
  status c = 301 /\
  header c !! "Access-Control-Allow-Origin" = None /\
  header c !! "Access-Control-Allow-Origin" <> Some ["*"].
Proof. vm_compute. repeat split. discriminate. Qed.

